(** * Sonicare BLE: the parser of [sonicare_ble/parser.py], embedded and verified

    The development follows the Python module top-down: the constants of
    [const.py], the string enumerations, the model registry with its
    dict-union mode tables, the advertisement handler [_start_update], the
    poll scheduler [poll_needed] and the GATT poll [async_poll].

    Modelling choices.
    - A Python [dict] is a [gmap]; [a | b] is the right-biased union.
    - [bytes] / [bytearray] are [list byte]; indexing yields an [int] in
      0..255, here a [Z].
    - Python [float] clock readings and durations are the rationals they
      denote ([Q]); comparisons are the exact ones.
    - [self] is a record passed and returned explicitly; an exception is the
      left injection of a sum and leaves the mutations done so far in place. *)

From Stdlib Require Import ZArith QArith Lqa Strings.String Strings.Ascii Strings.Byte.
From Stdlib Require Import Numbers.DecimalString Lists.List.
From stdpp Require Import gmap strings list fin_maps.

Local Open Scope Z_scope.
Local Open Scope string_scope.

(** ** const.py *)
Module Const.

Definition TIMEOUT_RECENTLY_BRUSHING : Q := 30%Q.
Definition NOT_BRUSHING_UPDATE_INTERVAL_SECONDS : Q := 20%Q.
Definition BRUSHING_UPDATE_INTERVAL_SECONDS : Q := 10%Q.

Definition SONICARE_ADVERTISMENT_UUID : string := "477ea600-a260-11e4-ae37-0002a5d50001".

Definition CHARACTERISTIC_BATTERY : string := "00002a19-0000-1000-8000-00805f9b34fb".
Definition CHARACTERISTIC_MODEL : string := "00002a24-0000-1000-8000-00805f9b34fb".
Definition CHARACTERISTIC_BRUSHING_TIME : string := "477ea600-a260-11e4-ae37-0002a5d54090".
Definition CHARACTERISTIC_STATE : string := "477ea600-a260-11e4-ae37-0002a5d54010".
Definition CHARACTERISTIC_CURRENT_TIME : string := "477ea600-a260-11e4-ae37-0002a5d54050".
Definition CHARACTERISTIC_MODE : string := "477ea600-a260-11e4-ae37-0002a5d54091".
Definition CHARACTERISTIC_STRENGTH : string := "477ea600-a260-11e4-ae37-0002a5d540b0".

Definition CHARACTERISTIC_BRUSH_USAGE : string := "477ea600-a260-11e4-ae37-0002a5d54290".
Definition CHARACTERISTIC_BRUSH_LIFETIME : string := "477ea600-a260-11e4-ae37-0002a5d54280".
Definition CHARACTERISTIC_SERIAL_NUMBER : string := "477ea600-a260-11e4-ae37-0002a5d54230".

End Const.
Import Const.

(** ** The string enumerations *)

Inductive SonicareSensor :=
| BRUSHING_TIME | CURRENT_TIME | TOOTHBRUSH_STATE | MODE | SIGNAL_STRENGTH
| BATTERY_PERCENT | BRUSH_TYPE | BRUSH_STRENGTH | BRUSH_HEAD_LIFETIME
| BRUSH_HEAD_USAGE | BRUSH_HEAD_PERCENTAGE.

(** [str(SonicareSensor.X)]: the value of a [StrEnum] member. *)
Definition str (s : SonicareSensor) : string :=
  match s with
  | BRUSHING_TIME => "brushing_time"
  | CURRENT_TIME => "current_time"
  | TOOTHBRUSH_STATE => "toothbrush_state"
  | MODE => "mode"
  | SIGNAL_STRENGTH => "signal_strength"
  | BATTERY_PERCENT => "battery_percent"
  | BRUSH_TYPE => "brush_type"
  | BRUSH_STRENGTH => "brush_strength"
  | BRUSH_HEAD_LIFETIME => "brush_head_lifetime"
  | BRUSH_HEAD_USAGE => "brush_head_usage"
  | BRUSH_HEAD_PERCENTAGE => "brush_head_percentage"
  end.

Inductive Models := HX6340 | HX992X | HX9990.

Record ModelDescription := {
  device_type : string;
  modes : gmap Z string
}.

(** ** The model registry *)

(** Python's [a | b] on dicts: the entries of both, [b] winning on a key
    they share. stdpp's union keeps the left operand's value, hence the swap. *)
Definition dict_or {V} (a b : gmap Z V) : gmap Z V := b ∪ a.

(** A dict display [{k1: v1, ...}]: later entries overwrite earlier ones. *)
Definition dict_of {V} (l : list (Z * V)) : gmap Z V :=
  fold_left (fun m kv => <[kv.1 := kv.2]> m) l ∅.

Definition KIDS_MODES : gmap Z string := dict_of [(0, "none")].

Definition EXPERT_CLEAN_MODES : gmap Z string :=
  dict_of [(120, "clean"); (200, "gun health"); (180, "deep clean+")].

Definition DIAMOND_CLEAN_MODES : gmap Z string :=
  dict_or EXPERT_CLEAN_MODES (dict_of [(160, "white+")]).

Definition PRESTIGE_MODES : gmap Z string :=
  dict_or DIAMOND_CLEAN_MODES (dict_of [(210, "sensitive")]).

(** [DEVICE_TYPES] has an entry for each member of [Models], so the
    subscript [DEVICE_TYPES[model]] is a total function. *)
Definition DEVICE_TYPES (m : Models) : ModelDescription :=
  match m with
  | HX6340 => {| device_type := "HX6340"; modes := KIDS_MODES |}
  | HX992X => {| device_type := "HX992X"; modes := DIAMOND_CLEAN_MODES |}
  | HX9990 => {| device_type := "HX9990"; modes := PRESTIGE_MODES |}
  end.

Definition STRENGTH : gmap Z string :=
  dict_of [(0, "low"); (1, "medium"); (2, "high")].

Definition STATES : gmap Z string :=
  dict_of [(0, "off"); (1, "standby"); (2, "run"); (3, "charge");
           (4, "shutdown"); (6, "validate"); (7, "lightsout")].

Definition SONICARE_MANUFACTURER : Z := 477.


(** ** Python strings *)

(** [hay.startswith(needle)] *)
Fixpoint startswith (needle hay : string) : bool :=
  match needle, hay with
  | EmptyString, _ => true
  | String a needle', String b hay' =>
      if Ascii.eqb a b then startswith needle' hay' else false
  | String _ _, EmptyString => false
  end.

(** [needle in hay] on [str]: [needle] occurs at some offset of [hay]. *)
Fixpoint contains (needle hay : string) : bool :=
  startswith needle hay ||
  match hay with
  | EmptyString => false
  | String _ hay' => contains needle hay'
  end.

(** What "contains as a substring" means, independently of the search. *)
Definition is_substring (needle hay : string) : Prop :=
  exists pre post, hay = pre +:+ needle +:+ post.

(** The decimal text of a non-negative [int], as an f-string renders it. *)
Definition format_int (z : Z) : string := NilEmpty.string_of_int (Z.to_int z).

(** ** Python bytes *)

(** [payload[0]] yields an [int] in 0..255. *)
Definition byte_int (b : byte) : Z := Z.of_N (Byte.to_N b).

(** [int.from_bytes(payload, "little")], unsigned. *)
Fixpoint int_from_bytes_little (payload : list byte) : Z :=
  match payload with
  | [] => 0
  | b :: rest => byte_int b + 256 * int_from_bytes_little rest
  end.

(** ** The objects the parser works on *)

(** The fields of [BluetoothServiceInfo] that the parser reads. *)
Record BluetoothServiceInfo := {
  address : string;
  manufacturer_data : gmap Z (list byte);
  service_uuids : list string
}.

(** A value handed to [update_sensor]: Python is dynamically typed and the
    parser passes ints, strings and raw payloads. *)
Inductive PyValue :=
| PyInt (n : Z)
| PyStr (s : string)
| PyBytes (b : list byte).

Inductive Units := PERCENTAGE.
Inductive SensorDeviceClass := BATTERY.

(** What [update_sensor] records under a sensor key. *)
Record SensorEntry := {
  native_unit_of_measurement : option Units;
  native_value : PyValue;
  device_class : option SensorDeviceClass;
  sensor_name : string
}.

(** [SonicareBluetoothDeviceData]: the two fields of the class itself and the
    fields of the [BluetoothData] base class written through its setters. *)
Record SonicareBluetoothDeviceData := {
  _brushing : bool;
  _last_brush : Q;
  _device_manufacturer : option string;
  _device_type : option string;
  _device_name : option string;
  _title : option string;
  _sensor_values : gmap string SensorEntry
}.

(** The snapshot [_finish_update] builds from the object. *)
Record SensorUpdate := {
  title : option string;
  entity_values : gmap string SensorEntry
}.

(** [__init__] *)
Definition __init__ : SonicareBluetoothDeviceData :=
  {| _brushing := false; _last_brush := 0%Q;
     _device_manufacturer := None; _device_type := None;
     _device_name := None; _title := None; _sensor_values := ∅ |}.

Definition set_device_manufacturer (m : string) (self : SonicareBluetoothDeviceData) :=
  {| _brushing := _brushing self; _last_brush := _last_brush self;
     _device_manufacturer := Some m; _device_type := _device_type self;
     _device_name := _device_name self; _title := _title self;
     _sensor_values := _sensor_values self |}.

Definition set_device_type (t : string) (self : SonicareBluetoothDeviceData) :=
  {| _brushing := _brushing self; _last_brush := _last_brush self;
     _device_manufacturer := _device_manufacturer self; _device_type := Some t;
     _device_name := _device_name self; _title := _title self;
     _sensor_values := _sensor_values self |}.

Definition set_device_name (n : string) (self : SonicareBluetoothDeviceData) :=
  {| _brushing := _brushing self; _last_brush := _last_brush self;
     _device_manufacturer := _device_manufacturer self; _device_type := _device_type self;
     _device_name := Some n; _title := _title self;
     _sensor_values := _sensor_values self |}.

Definition set_title (t : string) (self : SonicareBluetoothDeviceData) :=
  {| _brushing := _brushing self; _last_brush := _last_brush self;
     _device_manufacturer := _device_manufacturer self; _device_type := _device_type self;
     _device_name := _device_name self; _title := Some t;
     _sensor_values := _sensor_values self |}.

Definition set_sensor_values (v : gmap string SensorEntry) (self : SonicareBluetoothDeviceData) :=
  {| _brushing := _brushing self; _last_brush := _last_brush self;
     _device_manufacturer := _device_manufacturer self; _device_type := _device_type self;
     _device_name := _device_name self; _title := _title self;
     _sensor_values := v |}.

(** ** Advertisements: [_start_update] *)

(** The loop of lines 143-150: the flag is raised by any matching identifier
    and never lowered. *)
Definition correct_device (uuids : list string) : bool :=
  fold_left
    (fun correct service_uuid =>
       if contains SONICARE_ADVERTISMENT_UUID service_uuid then true else correct)
    uuids false.

Section Advertisement.

(** [bluetooth_data_tools.short_address], a function of another package. *)
Variable short_address : string -> string.

Definition _start_update (self : SonicareBluetoothDeviceData)
    (service_info : BluetoothServiceInfo) : SonicareBluetoothDeviceData :=
  if negb (correct_device (service_uuids service_info)) then self
  else
    let self := set_device_manufacturer "Philips Sonicare" self in
    let model := HX992X in
    let model_info := DEVICE_TYPES model in
    let self := set_device_type (device_type model_info) self in
    let name := device_type model_info +:+ " " +:+ short_address (address service_info) in
    let self := set_device_name name self in
    set_title name self.

End Advertisement.

(** ** The poll scheduler: [poll_needed] *)

(** [a > b] on the rationals. *)
Definition Qgt_bool (a b : Q) : bool := negb (Qle_bool a b).

(** [monotonic] is the reading [time.monotonic()] returns during the call. *)
Definition poll_needed (monotonic : Q) (self : SonicareBluetoothDeviceData)
    (service_info : BluetoothServiceInfo) (last_poll : option Q) : bool :=
  match last_poll with
  | None => true
  | Some last_poll =>
      let update_interval := NOT_BRUSHING_UPDATE_INTERVAL_SECONDS in
      let update_interval :=
        if _brushing self
           || Qle_bool (monotonic - _last_brush self) TIMEOUT_RECENTLY_BRUSHING
        then BRUSHING_UPDATE_INTERVAL_SECONDS
        else update_interval in
      Qgt_bool last_poll update_interval
  end.

(** ** Exceptions and the poll monad *)

Inductive exn :=
| MissingCharacteristic           (* what [read_gatt_char(None)] raises *)
| IndexError                      (* [payload[0]] on an empty payload *)
| OSError                         (* [time.localtime] of a value the C library refuses *)
| OverflowError                   (* [time.localtime] of a value beyond [time_t] *)
| AttributeError (attr : string). (* an attribute the object does not have *)

(** A method body run on [self]: it returns a value or raises, and either
    way hands back the object as mutated so far. *)
Definition Poll (A : Type) : Type :=
  SonicareBluetoothDeviceData -> (exn + A) * SonicareBluetoothDeviceData.

#[global] Instance Poll_ret : MRet Poll := fun A a self => (inr a, self).

#[global] Instance Poll_bind : MBind Poll := fun A B k m self =>
  match m self with
  | (inr a, self') => k a self'
  | (inl e, self') => (inl e, self')
  end.

(** An expression that touches no field of [self]. *)
Definition lift {A} (r : exn + A) : Poll A := fun self => (r, self).

(** The connected client: the characteristics the device exposes, each with
    the payload a read returns. [get_characteristic] of an identifier that
    is not there gives [None], and [read_gatt_char(None)] raises: the
    exception is the transport library's own (of which class depends on the
    library) and, having been given [None], it cannot tell which
    characteristic was asked for. Other transport failures are the
    transport's business. *)
Definition read_gatt_char (client : gmap string (list byte)) (uuid : string)
    : exn + list byte :=
  match client !! uuid with
  | Some payload => inr payload
  | None => inl MissingCharacteristic
  end.

(** [STATES.get(state_payload[0], f"unknown state {state_payload[0]}")] *)
Definition tb_state_of (state_payload : list byte) : exn + string :=
  match state_payload with
  | [] => inl IndexError
  | b :: _ =>
      inr (default ("unknown state " +:+ format_int (byte_int b))
                   (STATES !! byte_int b))
  end.

(** [battery_payload[0]] *)
Definition getitem0 (payload : list byte) : exn + Z :=
  match payload with
  | [] => inl IndexError
  | b :: _ => inr (byte_int b)
  end.

(** [int.from_byte(payload, "little")]: [int] has [from_bytes] but no
    [from_byte], so looking the attribute up raises before anything is
    converted. *)
Definition int_from_byte (payload : list byte) : exn + Z :=
  inl (AttributeError "from_byte").

(** [self._sensor_values[key] = entry] *)
Definition with_sensor (key : string) (entry : SensorEntry)
    (self : SonicareBluetoothDeviceData) : SonicareBluetoothDeviceData :=
  set_sensor_values (<[key := entry]> (_sensor_values self)) self.

(** [BluetoothData.update_sensor(key, unit, value, device_class, name)] *)
Definition update_sensor (key : string) (unit : option Units) (value : PyValue)
    (cls : option SensorDeviceClass) (name : string) : Poll () :=
  fun self =>
    (inr (),
     with_sensor key
       {| native_unit_of_measurement := unit; native_value := value;
          device_class := cls; sensor_name := name |}
       self).

(** [BluetoothData._finish_update()] *)
Definition _finish_update : Poll SensorUpdate :=
  fun self =>
    (inr {| title := _title self; entity_values := _sensor_values self |}, self).

(** What the [try] block of [async_poll] leaves in local variables. *)
Record Readings := {
  brush_usage_payload : list byte;
  brush_lifetime_payload : list byte;
  mode_payload : list byte;
  strength_payload : list byte;
  battery_payload : list byte;
  brushing_time_payload : list byte;
  tb_state : string;
  current_time_stamp : string
}.

(** The identifiers the [try] block reads, in the order it reads them. *)
Definition required_characteristics : list string :=
  [CHARACTERISTIC_BRUSH_USAGE; CHARACTERISTIC_BRUSH_LIFETIME; CHARACTERISTIC_MODE;
   CHARACTERISTIC_STRENGTH; CHARACTERISTIC_BATTERY; CHARACTERISTIC_BRUSHING_TIME;
   CHARACTERISTIC_STATE; CHARACTERISTIC_CURRENT_TIME].

(** The device answers every read of the [try] block. *)
Definition supplies_all (client : gmap string (list byte)) : Prop :=
  forall u, In u required_characteristics -> is_Some (client !! u).

(** The device lacks a characteristic the [try] block reads. *)
Definition lacks_one (client : gmap string (list byte)) : Prop :=
  exists u, In u required_characteristics /\ client !! u = None.

Section AsyncPoll.

(** [time.strftime('%Y-%m-%d %H:%M:%S', time.localtime(epoch))]: the text
    depends on the host's time zone, and [None] stands for the values
    [time.localtime] refuses. *)
Variable strftime_localtime : Z -> option string.

(** A refused value that does not fit the 64-bit [time_t] raises
    [OverflowError] while it is converted; one that fits is refused by the C
    library's [localtime], which Python reports as [OSError]. *)
Definition current_time_stamp_of (current_time_payload : list byte) : exn + string :=
  let current_time_epoch := int_from_bytes_little current_time_payload in
  match strftime_localtime current_time_epoch with
  | Some stamp => inr stamp
  | None => inl (if (current_time_epoch <? 2 ^ 63)%Z then OSError else OverflowError)
  end.

(** Lines 213-246. The first loop of the method (lines 197-211) only logs
    what it reads and swallows every exception, and the [finally] clause logs
    and disconnects: neither touches [self] nor the result. *)
Definition read_characteristics (client : gmap string (list byte)) : Poll Readings :=
  brush_usage_payload ← lift (read_gatt_char client CHARACTERISTIC_BRUSH_USAGE);
  brush_lifetime_payload ← lift (read_gatt_char client CHARACTERISTIC_BRUSH_LIFETIME);
  mode_payload ← lift (read_gatt_char client CHARACTERISTIC_MODE);
  strength_payload ← lift (read_gatt_char client CHARACTERISTIC_STRENGTH);
  battery_payload ← lift (read_gatt_char client CHARACTERISTIC_BATTERY);
  brushing_time_payload ← lift (read_gatt_char client CHARACTERISTIC_BRUSHING_TIME);
  state_payload ← lift (read_gatt_char client CHARACTERISTIC_STATE);
  tb_state ← lift (tb_state_of state_payload);
  current_time_payload ← lift (read_gatt_char client CHARACTERISTIC_CURRENT_TIME);
  current_time_stamp ← lift (current_time_stamp_of current_time_payload);
  mret {| brush_usage_payload := brush_usage_payload;
          brush_lifetime_payload := brush_lifetime_payload;
          mode_payload := mode_payload;
          strength_payload := strength_payload;
          battery_payload := battery_payload;
          brushing_time_payload := brushing_time_payload;
          tb_state := tb_state;
          current_time_stamp := current_time_stamp |}.

(** The eight [self.update_sensor(...)] statements, lines 247-308. The
    arguments of a call are evaluated before the call is made. *)

Definition update_brushing_time (r : Readings) : Poll () :=
  update_sensor (str BRUSHING_TIME) None
    (PyInt (int_from_bytes_little (brushing_time_payload r))) None "Brushing time".

Definition update_battery (r : Readings) : Poll () :=
  percent ← lift (getitem0 (battery_payload r));
  update_sensor (str BATTERY_PERCENT) (Some PERCENTAGE) (PyInt percent)
    (Some BATTERY) "Battery".

Definition update_toothbrush_state (r : Readings) : Poll () :=
  update_sensor (str TOOTHBRUSH_STATE) None (PyStr (tb_state r)) None "Toothbrush State".

Definition update_current_time (r : Readings) : Poll () :=
  update_sensor (str CURRENT_TIME) None (PyStr (current_time_stamp r)) None
    "Toothbrush current time".

Definition update_brush_head_lifetime (r : Readings) : Poll () :=
  update_sensor (str BRUSH_HEAD_LIFETIME) None
    (PyInt (int_from_bytes_little (brush_lifetime_payload r))) None
    "Toothbrush head total lifetime".

Definition update_brush_head_usage (r : Readings) : Poll () :=
  usage ← lift (int_from_byte (brush_usage_payload r));
  update_sensor (str BRUSH_HEAD_USAGE) None (PyInt usage) None "Toothbrush head usage".

Definition update_mode (r : Readings) : Poll () :=
  update_sensor (str MODE) None (PyBytes (mode_payload r)) None "Toothbrush current mode".

Definition update_brush_strength (r : Readings) : Poll () :=
  strength ← lift (int_from_byte (strength_payload r));
  update_sensor (str BRUSH_STRENGTH) None (PyInt strength) None
    "Toothbrush current strength".

Definition async_poll (client : gmap string (list byte)) : Poll SensorUpdate :=
  r ← read_characteristics client;
  update_brushing_time r;;
  update_battery r;;
  update_toothbrush_state r;;
  update_current_time r;;
  update_brush_head_lifetime r;;
  update_brush_head_usage r;;
  update_mode r;;
  update_brush_strength r;;
  _finish_update.

End AsyncPoll.

(** The object once the five leading updates have run. *)
Definition after_five_updates (r : Readings) (percent : Z)
    (self : SonicareBluetoothDeviceData) : SonicareBluetoothDeviceData :=
  with_sensor "brush_head_lifetime"
    {| native_unit_of_measurement := None;
       native_value := PyInt (int_from_bytes_little (brush_lifetime_payload r));
       device_class := None; sensor_name := "Toothbrush head total lifetime" |}
  (with_sensor "current_time"
    {| native_unit_of_measurement := None;
       native_value := PyStr (current_time_stamp r);
       device_class := None; sensor_name := "Toothbrush current time" |}
  (with_sensor "toothbrush_state"
    {| native_unit_of_measurement := None; native_value := PyStr (tb_state r);
       device_class := None; sensor_name := "Toothbrush State" |}
  (with_sensor "battery_percent"
    {| native_unit_of_measurement := Some PERCENTAGE; native_value := PyInt percent;
       device_class := Some BATTERY; sensor_name := "Battery" |}
  (with_sensor "brushing_time"
    {| native_unit_of_measurement := None;
       native_value := PyInt (int_from_bytes_little (brushing_time_payload r));
       device_class := None; sensor_name := "Brushing time" |}
   self)))).

(** ** A sample platform, to run the model on concrete inputs *)

(** A rendering in the manner of [short_address]: the last four characters
    of the address once the separators are dropped. *)
Definition sample_short_address (address : string) : string :=
  let kept :=
    filter (fun c => c <> ":"%char /\ c <> "-"%char) (list_ascii_of_string address) in
  string_of_list_ascii (skipn (length kept - 4) kept).

(** A stand-in for the host's clock formatting: the epoch seconds in decimal,
    refusing what a 64-bit [time_t] cannot hold. *)
Definition sample_strftime_localtime (epoch : Z) : option string :=
  if ((0 <=? epoch)%Z && (epoch <? 2 ^ 63)%Z)%bool
  then Some ("epoch " +:+ format_int epoch) else None.

Definition sample_service_info (uuids : list string) : BluetoothServiceInfo :=
  {| address := "24:E5:AA:01:C3:7F"; manufacturer_data := ∅; service_uuids := uuids |}.

(** An object whose activity fields hold the given values; the code itself
    only ever gives them their initial ones. *)
Definition with_activity (brushing : bool) (last_brush : Q) : SonicareBluetoothDeviceData :=
  {| _brushing := brushing; _last_brush := last_brush;
     _device_manufacturer := None; _device_type := None;
     _device_name := None; _title := None; _sensor_values := ∅ |}.

(** A device that answers all eight reads; the state and the device-time
    characteristics hold the given payloads. *)
Definition sample_device (state_payload current_time_payload : list byte)
    : gmap string (list byte) :=
  list_to_map
    [(CHARACTERISTIC_BRUSH_USAGE, [Byte.x05; Byte.x00]);
     (CHARACTERISTIC_BRUSH_LIFETIME, [Byte.x10; Byte.x01]);
     (CHARACTERISTIC_MODE, [Byte.x78]);
     (CHARACTERISTIC_STRENGTH, [Byte.x01]);
     (CHARACTERISTIC_BATTERY, [Byte.x50]);
     (CHARACTERISTIC_BRUSHING_TIME, [Byte.x78; Byte.x00]);
     (CHARACTERISTIC_STATE, state_payload);
     (CHARACTERISTIC_CURRENT_TIME, current_time_payload)].

(** The same device with its clock at 1708154368 seconds. *)
Definition sample_client (state_payload : list byte) : gmap string (list byte) :=
  sample_device state_payload [Byte.x00; Byte.x5e; Byte.xd0; Byte.x65].

(** ** Objects of a session, and the bytes of a state label *)

(** The objects a session can hold: a fresh one, and what advertisements
    and polls make of it. *)
Inductive reachable (short_address : string -> string)
    (strftime_localtime : Z -> option string) : SonicareBluetoothDeviceData -> Prop :=
| reachable_init : reachable short_address strftime_localtime __init__
| reachable_start_update self service_info :
    reachable short_address strftime_localtime self ->
    reachable short_address strftime_localtime
      (_start_update short_address self service_info)
| reachable_async_poll self client :
    reachable short_address strftime_localtime self ->
    reachable short_address strftime_localtime
      (async_poll strftime_localtime client self).2.

(** The 256 byte values. *)
Definition all_bytes : list byte :=
  omap Byte.of_N (map N.of_nat (seq 0 256)).

(** The first byte whose state label is the given one. *)
Definition code_of_state_label (label : string) : option byte :=
  List.find
    (fun b => match tb_state_of [b] with
              | inr l => String.eqb l label
              | inl _ => false
              end)
    all_bytes.

(** * Properties *)

(** ** The model registry *)

Lemma dict_or_lookup {V} (a b : gmap Z V) (k : Z) :
  dict_or a b !! k = match b !! k with Some v => Some v | None => a !! k end.
Proof.
  unfold dict_or. rewrite lookup_union.
  destruct (b !! k), (a !! k); reflexivity.
Qed.

(** Extending a table with fresh keys keeps every entry it had. *)
Lemma dict_or_extends {V} (a b : gmap Z V) :
  (forall k, is_Some (a !! k) -> b !! k = None) -> a ⊆ dict_or a b.
Proof.
  intros fresh. apply map_subseteq_spec. intros k v Hk.
  rewrite dict_or_lookup, (fresh k) by (rewrite Hk; eauto). exact Hk.
Qed.

Lemma expert_in_diamond : EXPERT_CLEAN_MODES ⊆ DIAMOND_CLEAN_MODES.
Proof.
  apply dict_or_extends. intros k Hk. cbn.
  destruct (decide (k = 160)) as [-> | Hne].
  - vm_compute in Hk. destruct Hk as [v Hv]. discriminate.
  - rewrite lookup_insert_ne by congruence. apply lookup_empty.
Qed.

Lemma diamond_in_prestige : DIAMOND_CLEAN_MODES ⊆ PRESTIGE_MODES.
Proof.
  apply dict_or_extends. intros k Hk. cbn.
  destruct (decide (k = 210)) as [-> | Hne].
  - vm_compute in Hk. destruct Hk as [v Hv]. discriminate.
  - rewrite lookup_insert_ne by congruence. apply lookup_empty.
Qed.

(** C10. The prestige table, built as the diamond-clean table extended by
    one entry, itself the expert-clean table extended by one entry, maps 200
    to "gun health"; the entry comes down the two extensions, each of which
    keeps every entry of the table it extends. *)
Theorem prestige_inherits_base_entries :
  PRESTIGE_MODES = dict_or DIAMOND_CLEAN_MODES (dict_of [(210, "sensitive")]) /\
  DIAMOND_CLEAN_MODES = dict_or EXPERT_CLEAN_MODES (dict_of [(160, "white+")]) /\
  EXPERT_CLEAN_MODES !! 200 = Some "gun health" /\
  PRESTIGE_MODES !! 200 = Some "gun health" /\
  EXPERT_CLEAN_MODES ⊆ DIAMOND_CLEAN_MODES /\
  DIAMOND_CLEAN_MODES ⊆ PRESTIGE_MODES /\
  EXPERT_CLEAN_MODES ⊆ PRESTIGE_MODES.
Proof.
  assert (base : EXPERT_CLEAN_MODES !! 200 = Some "gun health")
    by (vm_compute; reflexivity).
  assert (chain : EXPERT_CLEAN_MODES ⊆ PRESTIGE_MODES)
    by (etransitivity; [apply expert_in_diamond | apply diamond_in_prestige]).
  exact (conj eq_refl (conj eq_refl (conj base
           (conj (lookup_weaken _ _ _ _ base chain)
              (conj expert_in_diamond (conj diamond_in_prestige chain)))))).
Qed.

(** ** The poll scheduler *)

Lemma Qgt_bool_iff (a b : Q) : Qgt_bool a b = true <-> (b < a)%Q.
Proof.
  unfold Qgt_bool. rewrite negb_true_iff, <- not_true_iff_false, Qle_bool_iff.
  split; [apply Qnot_le_lt | apply Qlt_not_le].
Qed.

(** The interval [poll_needed] compares against, by cases on the activity. *)
Lemma poll_needed_interval (monotonic : Q) (self : SonicareBluetoothDeviceData)
    (si : BluetoothServiceInfo) (elapsed : Q) :
  poll_needed monotonic self si (Some elapsed) =
  Qgt_bool elapsed
    (if _brushing self || Qle_bool (monotonic - _last_brush self) 30
     then 10%Q else 20%Q).
Proof. reflexivity. Qed.

(** Brushing, or within the grace threshold of the last brushing activity,
    as [poll_needed] tests it. *)
Lemma recently_brushing_iff (monotonic : Q) (self : SonicareBluetoothDeviceData) :
  _brushing self || Qle_bool (monotonic - _last_brush self) 30 = true <->
  _brushing self = true \/ (monotonic - _last_brush self <= 30)%Q.
Proof. rewrite orb_true_iff, Qle_bool_iff. reflexivity. Qed.

Lemma poll_needed_short_interval (monotonic : Q) (self : SonicareBluetoothDeviceData)
    (si : BluetoothServiceInfo) (elapsed : Q) :
  _brushing self = true \/ (monotonic - _last_brush self <= 30)%Q ->
  poll_needed monotonic self si (Some elapsed) = true <-> (10 < elapsed)%Q.
Proof.
  intros activity. rewrite poll_needed_interval.
  apply recently_brushing_iff in activity. rewrite activity. apply Qgt_bool_iff.
Qed.

Lemma poll_needed_long_interval (monotonic : Q) (self : SonicareBluetoothDeviceData)
    (si : BluetoothServiceInfo) (elapsed : Q) :
  ~ (_brushing self = true \/ (monotonic - _last_brush self <= 30)%Q) ->
  poll_needed monotonic self si (Some elapsed) = true <-> (20 < elapsed)%Q.
Proof.
  intros idle. rewrite poll_needed_interval.
  destruct (_brushing self || Qle_bool (monotonic - _last_brush self) 30) eqn:short.
  - destruct idle. apply recently_brushing_iff. exact short.
  - apply Qgt_bool_iff.
Qed.

(** C1. Without a previous poll a poll is due. Otherwise, when the object is
    brushing or the last brushing activity is at most 30 units old, a poll
    is due exactly when more than 10 units have elapsed; in the remaining
    case, exactly when more than 20 units have elapsed. *)
Theorem poll_needed_rule (monotonic : Q) (self : SonicareBluetoothDeviceData)
    (si : BluetoothServiceInfo) :
  let recently :=
    _brushing self = true \/ (monotonic - _last_brush self <= 30)%Q in
  poll_needed monotonic self si None = true /\
  (forall elapsed : Q, recently ->
     (poll_needed monotonic self si (Some elapsed) = true <-> (10 < elapsed)%Q)) /\
  (forall elapsed : Q, ~ recently ->
     (poll_needed monotonic self si (Some elapsed) = true <-> (20 < elapsed)%Q)).
Proof.
  intros recently. split; [reflexivity | split; intros elapsed].
  - apply poll_needed_short_interval.
  - apply poll_needed_long_interval.
Qed.

(** The rule of C1 at one object and clock reading of each kind. *)
Lemma poll_needed_rule_witness :
  poll_needed 100 (with_activity false 75) (sample_service_info []) None = true /\
  (poll_needed 100 (with_activity false 75) (sample_service_info []) (Some 11%Q) = true
   <-> (10 < 11)%Q) /\
  (poll_needed 100 (with_activity false 60) (sample_service_info []) (Some 20%Q) = true
   <-> (20 < 20)%Q).
Proof.
  split; [| split].
  - apply (poll_needed_rule 100 (with_activity false 75) (sample_service_info [])).
  - apply (poll_needed_rule 100 (with_activity false 75) (sample_service_info [])).
    right. vm_compute. discriminate.
  - apply (poll_needed_rule 100 (with_activity false 60) (sample_service_info [])).
    intros [flag | recent]; [discriminate flag | apply recent; reflexivity].
Defined.

(** C9, as the code has it. With the flag down and the last brushing
    activity 25 units old the short interval applies, so a poll is due after
    15 elapsed units as well as after 31. *)
Theorem poll_needed_in_grace_window (monotonic : Q)
    (self : SonicareBluetoothDeviceData) (si : BluetoothServiceInfo) :
  _brushing self = false ->
  (_last_brush self == monotonic - 25)%Q ->
  poll_needed monotonic self si (Some 15%Q) = true /\
  poll_needed monotonic self si (Some 31%Q) = true.
Proof.
  intros flag stamp.
  assert (recent : (monotonic - _last_brush self <= 30)%Q) by (rewrite stamp; lra).
  split; apply poll_needed_short_interval; try (right; exact recent); reflexivity.
Qed.

Lemma poll_needed_in_grace_window_witness :
  _brushing (with_activity false 75) = false /\
  (_last_brush (with_activity false 75) == 100 - 25)%Q /\
  poll_needed 100 (with_activity false 75) (sample_service_info []) (Some 15%Q) = true /\
  poll_needed 100 (with_activity false 75) (sample_service_info []) (Some 31%Q) = true.
Proof.
  split; [reflexivity | split; [reflexivity |]].
  apply (poll_needed_in_grace_window 100 (with_activity false 75) (sample_service_info []));
    reflexivity.
Defined.

(** C9 as the spec words it fails: 25 units after the last brushing
    activity, 15 elapsed units already exceed the short interval. *)
Lemma poll_needed_15_in_grace_window_is_due :
  ~ (poll_needed 100 (with_activity false 75) (sample_service_info []) (Some 15%Q) = false /\
     poll_needed 100 (with_activity false 75) (sample_service_info []) (Some 31%Q) = true).
Proof. intros [not_due _]. vm_compute in not_due. discriminate not_due. Qed.

(** ** Advertisements *)

Lemma startswith_spec (needle hay : string) :
  startswith needle hay = true <-> exists post, hay = needle +:+ post.
Proof.
  revert hay. induction needle as [| a needle IH]; intros hay; simpl.
  - split; [intros _; exists hay; reflexivity | reflexivity].
  - destruct hay as [| b hay].
    + split; [discriminate | intros [post absurd]; discriminate absurd].
    + destruct (Ascii.eqb_spec a b) as [-> | differ].
      * rewrite IH. split; intros [post eq]; exists post.
        -- now rewrite eq.
        -- now injection eq.
      * split; [discriminate |].
        intros [post eq]. injection eq as head _. now destruct differ.
Qed.

(** The search of [contains] finds exactly the substrings. *)
Lemma contains_spec (needle hay : string) :
  contains needle hay = true <-> is_substring needle hay.
Proof.
  unfold is_substring.
  induction hay as [| c hay IH]; simpl; rewrite orb_true_iff, startswith_spec.
  - split.
    + intros [[post eq] | absurd]; [| discriminate absurd].
      exists "", post. exact eq.
    + intros (pre & post & eq). left. destruct pre; [| discriminate eq].
      exists post. exact eq.
  - rewrite IH. split.
    + intros [[post eq] | (pre & post & eq)].
      * exists "", post. exact eq.
      * exists (String c pre), post. simpl. now rewrite eq.
    + intros (pre & post & eq). destruct pre as [| c' pre]; simpl in eq.
      * left. exists post. exact eq.
      * right. exists pre, post. now injection eq.
Qed.

(** The loop raises the flag exactly when some identifier matches. *)
Lemma correct_device_spec (uuids : list string) :
  correct_device uuids = true <->
  exists u, In u uuids /\ is_substring SONICARE_ADVERTISMENT_UUID u.
Proof.
  unfold correct_device.
  assert (loop : forall start,
    fold_left
      (fun correct service_uuid =>
         if contains SONICARE_ADVERTISMENT_UUID service_uuid then true else correct)
      uuids start = true <->
    start = true \/
    exists u, In u uuids /\ is_substring SONICARE_ADVERTISMENT_UUID u).
  { induction uuids as [| u uuids IH]; intros start; simpl.
    - split; [now left | intros [eq | (u & [] & _)]; exact eq].
    - rewrite IH. destruct (contains SONICARE_ADVERTISMENT_UUID u) eqn:hit.
      + apply contains_spec in hit. split; [| now left].
        intros _. right. exists u. split; [now left | exact hit].
      + split.
        * intros [eq | (v & member & sub)]; [now left |].
          right. exists v. split; [now right | exact sub].
        * intros [eq | (v & [<- | member] & sub)]; [now left | |].
          -- apply contains_spec in sub. congruence.
          -- right. exists v. split; assumption. }
  rewrite loop. split; [intros [absurd | found] | intros found].
  - discriminate absurd.
  - exact found.
  - right. exact found.
Qed.

(** C2. When no advertised service identifier contains the advertisement
    UUID as a substring, [_start_update] returns without touching the
    object: no manufacturer, type, name or title is set. *)
Theorem start_update_ignores_other_devices (short_address : string -> string)
    (self : SonicareBluetoothDeviceData) (si : BluetoothServiceInfo) :
  (forall u, In u (service_uuids si) ->
             ~ is_substring "477ea600-a260-11e4-ae37-0002a5d50001" u) ->
  _start_update short_address self si = self.
Proof.
  intros none. unfold _start_update.
  destruct (correct_device (service_uuids si)) eqn:flag; [| reflexivity].
  apply correct_device_spec in flag. destruct flag as (u & member & sub).
  destruct (none u member sub).
Qed.

Lemma start_update_ignores_other_devices_witness :
  _start_update sample_short_address __init__
    (sample_service_info ["0000180f-0000-1000-8000-00805f9b34fb";
                          "477ea600-a260-11e4-ae37-0002a5d54010"]) = __init__.
Proof.
  apply start_update_ignores_other_devices.
  intros u member sub. apply contains_spec in sub.
  destruct member as [<- | [<- | []]]; vm_compute in sub; discriminate sub.
Defined.

(** C3. When some advertised service identifier contains the advertisement
    UUID, [_start_update] sets the manufacturer to "Philips Sonicare", the
    type to that of the fixed model HX992X (whose mode table is the
    diamond-clean one), and both title and name to that display name, a
    space, and the short form of the address, which depends on the address
    alone. The activity fields and the sensor values are left alone. *)
Theorem start_update_identifies_sonicare (short_address : string -> string)
    (self : SonicareBluetoothDeviceData) (si : BluetoothServiceInfo) :
  (exists u, In u (service_uuids si) /\
             is_substring "477ea600-a260-11e4-ae37-0002a5d50001" u) ->
  let self' := _start_update short_address self si in
  _device_manufacturer self' = Some "Philips Sonicare" /\
  _device_type self' = Some (device_type (DEVICE_TYPES HX992X)) /\
  device_type (DEVICE_TYPES HX992X) = "HX992X" /\
  modes (DEVICE_TYPES HX992X) = DIAMOND_CLEAN_MODES /\
  _title self' = Some ("HX992X" +:+ " " +:+ short_address (address si)) /\
  _device_name self' = _title self' /\
  _brushing self' = _brushing self /\
  _last_brush self' = _last_brush self /\
  _sensor_values self' = _sensor_values self.
Proof.
  intros found self'. subst self'. unfold _start_update.
  apply correct_device_spec in found. rewrite found. cbn.
  repeat split.
Qed.

Lemma start_update_identifies_sonicare_witness :
  let self' :=
    _start_update sample_short_address __init__
      (sample_service_info ["0000180f-0000-1000-8000-00805f9b34fb";
                            "477ea600-a260-11e4-ae37-0002a5d50001"]) in
  _device_manufacturer self' = Some "Philips Sonicare" /\
  _device_type self' = Some "HX992X" /\
  _title self' = Some "HX992X C37F".
Proof.
  pose proof (start_update_identifies_sonicare sample_short_address __init__
    (sample_service_info ["0000180f-0000-1000-8000-00805f9b34fb";
                          "477ea600-a260-11e4-ae37-0002a5d50001"])) as identified.
  destruct identified as (manufacturer & type & _ & _ & title & _).
  - exists "477ea600-a260-11e4-ae37-0002a5d50001". split.
    + right. left. reflexivity.
    + apply contains_spec. vm_compute. reflexivity.
  - split; [exact manufacturer | split; [exact type | exact title]].
Defined.

(** ** The GATT poll *)

Section PollFacts.

Variable strftime_localtime : Z -> option string.


(** Reading never writes to the object. *)
Lemma read_characteristics_frame (client : gmap string (list byte))
    (self : SonicareBluetoothDeviceData) :
  (read_characteristics strftime_localtime client self).2 = self.
Proof.
  unfold read_characteristics, mbind, Poll_bind, lift, mret, Poll_ret. simpl.
  repeat case_match; simplify_eq; reflexivity.
Qed.

(** What is read depends on the device alone. *)
Lemma read_characteristics_pure (client : gmap string (list byte))
    (self other : SonicareBluetoothDeviceData) :
  (read_characteristics strftime_localtime client self).1 = (read_characteristics strftime_localtime client other).1.
Proof.
  unfold read_characteristics, mbind, Poll_bind, lift, mret, Poll_ret. simpl.
  repeat case_match; simplify_eq; reflexivity.
Qed.

(** The outcome of the whole method, by cases on the reads. *)
Lemma async_poll_outcome (client : gmap string (list byte))
    (self : SonicareBluetoothDeviceData) :
  async_poll strftime_localtime client self =
  match (read_characteristics strftime_localtime client self).1 with
  | inl e => (inl e, self)
  | inr r =>
      match battery_payload r with
      | [] =>
          (inl IndexError,
           with_sensor "brushing_time"
             {| native_unit_of_measurement := None;
                native_value := PyInt (int_from_bytes_little (brushing_time_payload r));
                device_class := None; sensor_name := "Brushing time" |} self)
      | b :: _ =>
          (inl (AttributeError "from_byte"), after_five_updates r (byte_int b) self)
      end
  end.
Proof.
  pose proof (read_characteristics_frame client self) as frame.
  unfold async_poll.
  unfold mbind at 1. unfold Poll_bind at 1.
  destruct (read_characteristics strftime_localtime client self) as [[e | r] self'];
    simpl in frame; subst self'; [reflexivity |].
  simpl. unfold update_battery, mbind, Poll_bind, lift, getitem0. simpl.
  destruct (battery_payload r) as [| b rest]; reflexivity.
Qed.

(** With all eight characteristics there, the reads succeed unless the
    state payload is empty or the device time cannot be rendered. *)
Lemma read_characteristics_supplied (client : gmap string (list byte))
    (self : SonicareBluetoothDeviceData) (up lp mp sp bp btp stp ctp : list byte) :
  client !! CHARACTERISTIC_BRUSH_USAGE = Some up ->
  client !! CHARACTERISTIC_BRUSH_LIFETIME = Some lp ->
  client !! CHARACTERISTIC_MODE = Some mp ->
  client !! CHARACTERISTIC_STRENGTH = Some sp ->
  client !! CHARACTERISTIC_BATTERY = Some bp ->
  client !! CHARACTERISTIC_BRUSHING_TIME = Some btp ->
  client !! CHARACTERISTIC_STATE = Some stp ->
  client !! CHARACTERISTIC_CURRENT_TIME = Some ctp ->
  (read_characteristics strftime_localtime client self).1 =
  match tb_state_of stp with
  | inl e => inl e
  | inr label =>
      match current_time_stamp_of strftime_localtime ctp with
      | inl e => inl e
      | inr stamp =>
          inr {| brush_usage_payload := up; brush_lifetime_payload := lp;
                 mode_payload := mp; strength_payload := sp;
                 battery_payload := bp; brushing_time_payload := btp;
                 tb_state := label; current_time_stamp := stamp |}
      end
  end.
Proof.
  intros usage lifetime mode strength battery brushing state time.
  unfold read_characteristics, mbind, Poll_bind, lift, mret, Poll_ret, read_gatt_char.
  rewrite usage, lifetime, mode, strength, battery, brushing, state. simpl.
  destruct (tb_state_of stp) as [e | label]; [reflexivity |].
  rewrite time. simpl.
  destruct (current_time_stamp_of strftime_localtime ctp); reflexivity.
Qed.

Lemma supplies_all_payloads (client : gmap string (list byte)) :
  supplies_all client ->
  exists up lp mp sp bp btp stp ctp,
    client !! CHARACTERISTIC_BRUSH_USAGE = Some up /\
    client !! CHARACTERISTIC_BRUSH_LIFETIME = Some lp /\
    client !! CHARACTERISTIC_MODE = Some mp /\
    client !! CHARACTERISTIC_STRENGTH = Some sp /\
    client !! CHARACTERISTIC_BATTERY = Some bp /\
    client !! CHARACTERISTIC_BRUSHING_TIME = Some btp /\
    client !! CHARACTERISTIC_STATE = Some stp /\
    client !! CHARACTERISTIC_CURRENT_TIME = Some ctp.
Proof.
  intros all.
  destruct (all CHARACTERISTIC_BRUSH_USAGE) as [up ?]; [simpl; tauto |].
  destruct (all CHARACTERISTIC_BRUSH_LIFETIME) as [lp ?]; [simpl; tauto |].
  destruct (all CHARACTERISTIC_MODE) as [mp ?]; [simpl; tauto |].
  destruct (all CHARACTERISTIC_STRENGTH) as [sp ?]; [simpl; tauto |].
  destruct (all CHARACTERISTIC_BATTERY) as [bp ?]; [simpl; tauto |].
  destruct (all CHARACTERISTIC_BRUSHING_TIME) as [btp ?]; [simpl; tauto |].
  destruct (all CHARACTERISTIC_STATE) as [stp ?]; [simpl; tauto |].
  destruct (all CHARACTERISTIC_CURRENT_TIME) as [ctp ?]; [simpl; tauto |].
  exists up, lp, mp, sp, bp, btp, stp, ctp. tauto.
Qed.

(** No path through the method reaches [_finish_update]. *)
Lemma async_poll_raises (client : gmap string (list byte))
    (self : SonicareBluetoothDeviceData) :
  exists e, (async_poll strftime_localtime client self).1 = inl e.
Proof.
  rewrite async_poll_outcome.
  destruct (read_characteristics strftime_localtime client self).1 as [e | r];
    [| destruct (battery_payload r)]; eauto.
Qed.

(** The method writes sensor values only: the activity fields and the
    identity set by [_start_update] come out as they went in. *)
Lemma async_poll_frame (client : gmap string (list byte))
    (self : SonicareBluetoothDeviceData) :
  let self' := (async_poll strftime_localtime client self).2 in
  _brushing self' = _brushing self /\
  _last_brush self' = _last_brush self /\
  _device_manufacturer self' = _device_manufacturer self /\
  _device_type self' = _device_type self /\
  _device_name self' = _device_name self /\
  _title self' = _title self.
Proof.
  rewrite async_poll_outcome.
  destruct (read_characteristics strftime_localtime client self).1 as [e | r];
    [| destruct (battery_payload r)]; repeat split.
Qed.

Lemma after_five_updates_state (r : Readings) (percent : Z)
    (self : SonicareBluetoothDeviceData) :
  native_value <$> _sensor_values (after_five_updates r percent self) !! "toothbrush_state"
  = Some (PyStr (tb_state r)).
Proof.
  unfold after_five_updates, with_sensor. simpl.
  rewrite !lookup_insert_ne by discriminate. rewrite lookup_insert_eq. reflexivity.
Qed.

Lemma after_five_updates_brushing_time (r : Readings) (percent : Z)
    (self : SonicareBluetoothDeviceData) :
  native_value <$> _sensor_values (after_five_updates r percent self) !! "brushing_time"
  = Some (PyInt (int_from_bytes_little (brushing_time_payload r))).
Proof.
  unfold after_five_updates, with_sensor. simpl.
  rewrite !lookup_insert_ne by discriminate. rewrite lookup_insert_eq. reflexivity.
Qed.

(** The later steps that raise do not undo the state sensor: with the reads
    complete and a battery byte to show, the label resolved from the state
    payload is what the object holds when the method stops. *)
Lemma async_poll_records_state (client : gmap string (list byte))
    (self : SonicareBluetoothDeviceData) (b c : byte) (rest more ctp : list byte) :
  supplies_all client ->
  client !! CHARACTERISTIC_STATE = Some (b :: rest) ->
  client !! CHARACTERISTIC_BATTERY = Some (c :: more) ->
  client !! CHARACTERISTIC_CURRENT_TIME = Some ctp ->
  is_Some (strftime_localtime (int_from_bytes_little ctp)) ->
  native_value <$>
    _sensor_values (async_poll strftime_localtime client self).2 !! "toothbrush_state"
  = Some (PyStr (default ("unknown state " +:+ format_int (byte_int b))
                         (STATES !! byte_int b))).
Proof.
  intros all state battery time [stamp rendered].
  destruct (supplies_all_payloads client all)
    as (up & lp & mp & sp & bp & btp & stp & ctp' & ? & ? & ? & ? & ? & ? & ? & ?).
  simplify_eq.
  rewrite async_poll_outcome.
  erewrite read_characteristics_supplied by eassumption.
  unfold current_time_stamp_of. rewrite rendered.
  cbn [tb_state_of battery_payload snd].
  apply after_five_updates_state.
Qed.

(** C4, as the code has it. A state payload whose first byte is 2 resolves
    to the label "run", and that label is what the toothbrush-state sensor
    holds once the reads have succeeded and the battery payload had a byte;
    but the method never writes the brushing flag or the last-brushing
    timestamp: both come out of the call as they went in. *)
Theorem state_run_resolves_and_activity_is_kept (client : gmap string (list byte))
    (self : SonicareBluetoothDeviceData) (rest : list byte) :
  client !! CHARACTERISTIC_STATE = Some (Byte.x02 :: rest) ->
  let self' := (async_poll strftime_localtime client self).2 in
  tb_state_of (Byte.x02 :: rest) = inr "run" /\
  _brushing self' = _brushing self /\
  _last_brush self' = _last_brush self /\
  (forall (c : byte) (more ctp : list byte),
     supplies_all client ->
     client !! CHARACTERISTIC_BATTERY = Some (c :: more) ->
     client !! CHARACTERISTIC_CURRENT_TIME = Some ctp ->
     is_Some (strftime_localtime (int_from_bytes_little ctp)) ->
     native_value <$> _sensor_values self' !! "toothbrush_state" = Some (PyStr "run")).
Proof.
  intros state self'.
  destruct (async_poll_frame client self) as (flag & stamp & _).
  split; [reflexivity | split; [exact flag | split; [exact stamp |]]].
  intros c more ctp all battery time rendered. subst self'.
  now rewrite (async_poll_records_state client self _ _ _ _ _ all state battery time rendered).
Qed.

(** C5, as the code has it. With all eight payloads supplied the method
    never returns a snapshot: the brush-head-usage and strength steps call
    [int.from_byte], which does not exist. When the state payload is not
    empty and the device time can be rendered, the exception comes after the
    brushing-time sensor has been written; otherwise it comes out of the
    reads, with no sensor written. *)
Theorem async_poll_never_returns_snapshot (client : gmap string (list byte))
    (self : SonicareBluetoothDeviceData) :
  supplies_all client ->
  let out := async_poll strftime_localtime client self in
  (exists e, out.1 = inl e) /\
  (forall r s, update_brush_head_usage r s = (inl (AttributeError "from_byte"), s)) /\
  (forall r s, update_brush_strength r s = (inl (AttributeError "from_byte"), s)) /\
  (forall stp ctp btp : list byte,
     client !! CHARACTERISTIC_STATE = Some stp ->
     client !! CHARACTERISTIC_CURRENT_TIME = Some ctp ->
     client !! CHARACTERISTIC_BRUSHING_TIME = Some btp ->
     (stp <> [] /\ is_Some (strftime_localtime (int_from_bytes_little ctp)) ->
      native_value <$> _sensor_values out.2 !! "brushing_time"
      = Some (PyInt (int_from_bytes_little btp))) /\
     (stp = [] \/ strftime_localtime (int_from_bytes_little ctp) = None ->
      out.2 = self)).
Proof.
  intros all out. subst out.
  split; [apply async_poll_raises |].
  split; [reflexivity | split; [reflexivity |]].
  intros stp ctp btp state time brushing.
  destruct (supplies_all_payloads client all)
    as (up & lp & mp & sp & bp & btp' & stp' & ctp' & ? & ? & ? & ? & ? & ? & ? & ?).
  simplify_eq.
  rewrite async_poll_outcome.
  erewrite read_characteristics_supplied by eassumption.
  unfold current_time_stamp_of. split.
  - intros [nonempty [stamp rendered]]. rewrite rendered.
    destruct stp as [| b rest]; [now destruct nonempty |].
    cbn [tb_state_of battery_payload].
    destruct bp as [| c more]; cbn [snd].
    + unfold with_sensor. simpl. now rewrite lookup_insert_eq.
    + apply after_five_updates_brushing_time.
  - intros [-> | refused]; [reflexivity |].
    rewrite refused. destruct (tb_state_of stp); reflexivity.
Qed.

(** The method writes under five keys at most. *)
Lemma async_poll_other_sensors (client : gmap string (list byte))
    (self : SonicareBluetoothDeviceData) (key : string) :
  ~ In key ["brushing_time"; "battery_percent"; "toothbrush_state";
            "current_time"; "brush_head_lifetime"] ->
  _sensor_values (async_poll strftime_localtime client self).2 !! key
  = _sensor_values self !! key.
Proof.
  intros other. simpl in other.
  rewrite async_poll_outcome.
  destruct (read_characteristics strftime_localtime client self).1 as [e | r];
    [reflexivity |].
  destruct (battery_payload r); unfold after_five_updates, with_sensor; simpl;
    rewrite !lookup_insert_ne by tauto; reflexivity.
Qed.

(** C7, as the code has it. When a required characteristic is absent the
    method raises out of its reads: no sensor is written and no snapshot is
    built. What it raises is the transport's exception for the read of an
    absent characteristic, unless the state payload is there but empty and
    the device time is the only characteristic absent: then, and only then,
    indexing the empty payload raises an index error before the device time
    is asked for. *)
Theorem async_poll_fails_when_payload_missing (client : gmap string (list byte))
    (self : SonicareBluetoothDeviceData) :
  lacks_one client ->
  let out := async_poll strftime_localtime client self in
  let empty_state_hides_time :=
    client !! CHARACTERISTIC_STATE = Some [] /\
    forall u, In u required_characteristics -> client !! u = None ->
              u = CHARACTERISTIC_CURRENT_TIME in
  out.2 = self /\
  (empty_state_hides_time -> out.1 = inl IndexError) /\
  (~ empty_state_hides_time -> out.1 = inl MissingCharacteristic).
Proof.
  intros (missing & member & absent) out hidden. subst out hidden.
  rewrite async_poll_outcome.
  assert (reads :
    (read_characteristics strftime_localtime client self).1 = inl IndexError /\
      (client !! CHARACTERISTIC_STATE = Some [] /\
       forall u, In u required_characteristics -> client !! u = None ->
                 u = CHARACTERISTIC_CURRENT_TIME)
    \/ (read_characteristics strftime_localtime client self).1
         = inl MissingCharacteristic /\
       ~ (client !! CHARACTERISTIC_STATE = Some [] /\
          forall u, In u required_characteristics -> client !! u = None ->
                    u = CHARACTERISTIC_CURRENT_TIME)).
  { unfold read_characteristics, mbind, Poll_bind, lift, mret, Poll_ret, read_gatt_char.
    assert (elsewhere : forall u,
              In u required_characteristics -> client !! u = None ->
              u <> CHARACTERISTIC_CURRENT_TIME ->
              ~ (client !! CHARACTERISTIC_STATE = Some [] /\
                 forall v, In v required_characteristics -> client !! v = None ->
                           v = CHARACTERISTIC_CURRENT_TIME)).
    { intros u listed gone other [_ only]. exact (other (only u listed gone)). }
    destruct (client !! CHARACTERISTIC_BRUSH_USAGE) eqn:usage;
      [| right; split; [reflexivity |];
         apply (elsewhere CHARACTERISTIC_BRUSH_USAGE);
         [simpl; tauto | exact usage | discriminate]].
    destruct (client !! CHARACTERISTIC_BRUSH_LIFETIME) eqn:lifetime;
      [| right; split; [reflexivity |];
         apply (elsewhere CHARACTERISTIC_BRUSH_LIFETIME);
         [simpl; tauto | exact lifetime | discriminate]].
    destruct (client !! CHARACTERISTIC_MODE) eqn:mode;
      [| right; split; [reflexivity |];
         apply (elsewhere CHARACTERISTIC_MODE);
         [simpl; tauto | exact mode | discriminate]].
    destruct (client !! CHARACTERISTIC_STRENGTH) eqn:strength;
      [| right; split; [reflexivity |];
         apply (elsewhere CHARACTERISTIC_STRENGTH);
         [simpl; tauto | exact strength | discriminate]].
    destruct (client !! CHARACTERISTIC_BATTERY) eqn:battery;
      [| right; split; [reflexivity |];
         apply (elsewhere CHARACTERISTIC_BATTERY);
         [simpl; tauto | exact battery | discriminate]].
    destruct (client !! CHARACTERISTIC_BRUSHING_TIME) eqn:brushing;
      [| right; split; [reflexivity |];
         apply (elsewhere CHARACTERISTIC_BRUSHING_TIME);
         [simpl; tauto | exact brushing | discriminate]].
    destruct (client !! CHARACTERISTIC_STATE) as [[| b rest] |] eqn:state.
    - left. repeat split. intros u listed gone.
      simpl in listed. intuition (subst; congruence).
    - destruct (client !! CHARACTERISTIC_CURRENT_TIME) eqn:time.
      + exfalso. simpl in member. intuition (subst; congruence).
      + right. split; [reflexivity |]. intros [absurd _]. discriminate absurd.
    - right. split; [reflexivity |]. intros [absurd _]. discriminate absurd. }
  destruct reads as [[raised hidden] | [raised shown]]; rewrite raised; cbn [fst snd].
  - split; [reflexivity |]. split; [reflexivity |]. intros shown. now destruct shown.
  - split; [reflexivity |]. split; [| reflexivity]. intros hidden. now destruct shown.
Qed.

(** C8. A state payload whose first byte has no entry in the state table
    resolves, without an exception, to the label "unknown state" followed by
    the code in decimal; and that label is what the toothbrush-state sensor
    holds once the reads have succeeded and the battery payload had a byte. *)
Theorem unknown_state_label (b : byte) (rest : list byte) :
  STATES !! byte_int b = None ->
  tb_state_of (b :: rest) = inr ("unknown state " +:+ format_int (byte_int b)) /\
  (forall (client : gmap string (list byte)) (self : SonicareBluetoothDeviceData)
          (c : byte) (more ctp : list byte),
     supplies_all client ->
     client !! CHARACTERISTIC_STATE = Some (b :: rest) ->
     client !! CHARACTERISTIC_BATTERY = Some (c :: more) ->
     client !! CHARACTERISTIC_CURRENT_TIME = Some ctp ->
     is_Some (strftime_localtime (int_from_bytes_little ctp)) ->
     native_value <$>
       _sensor_values (async_poll strftime_localtime client self).2 !! "toothbrush_state"
     = Some (PyStr ("unknown state " +:+ format_int (byte_int b)))).
Proof.
  intros unmapped. split.
  - unfold tb_state_of. now rewrite unmapped.
  - intros client self c more ctp all state battery time rendered.
    rewrite (async_poll_records_state client self _ _ _ _ _ all state battery time rendered).
    now rewrite unmapped.
Qed.

End PollFacts.

(** ** The poll on the sample device *)

Lemma sample_device_supplies_all (state_payload current_time_payload : list byte) :
  supplies_all (sample_device state_payload current_time_payload).
Proof.
  intros u listed. simpl in listed.
  destruct listed as [<- | [<- | [<- | [<- | [<- | [<- | [<- | [<- | []]]]]]]]];
    vm_compute; eauto.
Qed.

Lemma sample_client_supplies_all (state_payload : list byte) :
  supplies_all (sample_client state_payload).
Proof. unfold sample_client. apply sample_device_supplies_all. Qed.

Lemma state_run_resolves_and_activity_is_kept_witness :
  let self' :=
    (async_poll sample_strftime_localtime (sample_client [Byte.x02]) __init__).2 in
  tb_state_of [Byte.x02] = inr "run" /\
  _brushing self' = false /\
  native_value <$> _sensor_values self' !! "toothbrush_state" = Some (PyStr "run").
Proof.
  destruct (state_run_resolves_and_activity_is_kept sample_strftime_localtime
              (sample_client [Byte.x02]) __init__ [])
    as (label & flag & _ & sensor).
  - vm_compute. reflexivity.
  - split; [exact label | split; [exact flag |]].
    apply (sensor Byte.x50 [] [Byte.x00; Byte.x5e; Byte.xd0; Byte.x65]).
    + apply sample_client_supplies_all.
    + vm_compute. reflexivity.
    + vm_compute. reflexivity.
    + vm_compute. eauto.
Defined.

(** C4 as the spec words it fails: the state payload says "run", the sensor
    shows it, and the brushing flag is still down after the poll. *)
Lemma state_run_leaves_brushing_flag_down :
  let self' :=
    (async_poll sample_strftime_localtime (sample_client [Byte.x02]) __init__).2 in
  native_value <$> _sensor_values self' !! "toothbrush_state" = Some (PyStr "run") /\
  _brushing self' <> true /\
  _last_brush self' = _last_brush __init__.
Proof. vm_compute. repeat split. discriminate. Qed.

Lemma async_poll_never_returns_snapshot_witness :
  supplies_all (sample_client [Byte.x02]) /\
  (async_poll sample_strftime_localtime (sample_client [Byte.x02]) __init__).1
  = inl (AttributeError "from_byte") /\
  native_value <$>
    _sensor_values
      (async_poll sample_strftime_localtime (sample_client [Byte.x02]) __init__).2
    !! "brushing_time"
  = Some (PyInt 120).
Proof.
  split; [apply sample_client_supplies_all |].
  split; [vm_compute; reflexivity |].
  destruct (async_poll_never_returns_snapshot sample_strftime_localtime
              (sample_client [Byte.x02]) __init__ (sample_client_supplies_all _))
    as (_ & _ & _ & updated).
  destruct (updated [Byte.x02] [Byte.x00; Byte.x5e; Byte.xd0; Byte.x65]
              [Byte.x78; Byte.x00]) as [written _]; [vm_compute; reflexivity .. |].
  apply written. split; [discriminate | vm_compute; eauto].
Defined.

(** C5 as worded fails on a device whose state payload is empty, and on one
    whose clock holds eight bytes 255: all eight payloads are supplied, and
    the exception leaves the reads before any sensor has been written. *)
Lemma async_poll_empty_state_updates_nothing :
  supplies_all (sample_client []) /\
  async_poll sample_strftime_localtime (sample_client []) __init__
  = (inl IndexError, __init__) /\
  supplies_all (sample_device [Byte.x02] (repeat Byte.xff 8)) /\
  async_poll sample_strftime_localtime
    (sample_device [Byte.x02] (repeat Byte.xff 8)) __init__
  = (inl OverflowError, __init__).
Proof.
  split; [apply sample_client_supplies_all |].
  split; [vm_compute; reflexivity |].
  split; [apply sample_device_supplies_all | vm_compute; reflexivity].
Qed.

(** C6: the code at a device in mode 120 with strength 1. The mode table of
    the model reads 120 as "clean" and the strength table reads 1 as
    "medium", yet the poll stops at the missing [int.from_byte] of the
    head-usage step with neither sensor written; and on no device does a poll
    write the head-usage, the mode or the strength sensor. *)
Theorem async_poll_never_labels_mode_or_strength :
  (forall (strftime_localtime : Z -> option string)
          (client : gmap string (list byte)) (self : SonicareBluetoothDeviceData)
          (key : string),
     key = "brush_head_usage" \/ key = "mode" \/ key = "brush_strength" ->
     _sensor_values (async_poll strftime_localtime client self).2 !! key
     = _sensor_values self !! key) /\
  sample_client [Byte.x02] !! CHARACTERISTIC_MODE = Some [Byte.x78] /\
  modes (DEVICE_TYPES HX992X) !! byte_int Byte.x78 = Some "clean" /\
  sample_client [Byte.x02] !! CHARACTERISTIC_STRENGTH = Some [Byte.x01] /\
  STRENGTH !! byte_int Byte.x01 = Some "medium" /\
  let out := async_poll sample_strftime_localtime (sample_client [Byte.x02]) __init__ in
  out.1 = inl (AttributeError "from_byte") /\
  _sensor_values out.2 !! "mode" = None /\
  _sensor_values out.2 !! "brush_strength" = None.
Proof.
  split.
  - intros strftime_localtime client self key which.
    apply async_poll_other_sensors. simpl.
    destruct which as [-> | [-> | ->]]; intuition discriminate.
  - vm_compute. repeat split.
Qed.

Lemma async_poll_fails_when_payload_missing_witness :
  lacks_one (delete CHARACTERISTIC_MODE (sample_client [Byte.x02])) /\
  (async_poll sample_strftime_localtime
     (delete CHARACTERISTIC_MODE (sample_client [Byte.x02])) __init__).2 = __init__ /\
  (async_poll sample_strftime_localtime
     (delete CHARACTERISTIC_MODE (sample_client [Byte.x02])) __init__).1
  = inl MissingCharacteristic.
Proof.
  assert (lacking : lacks_one (delete CHARACTERISTIC_MODE (sample_client [Byte.x02]))).
  { exists CHARACTERISTIC_MODE. split; [simpl; tauto | apply lookup_delete_eq]. }
  split; [exact lacking |].
  destruct (async_poll_fails_when_payload_missing sample_strftime_localtime
              (delete CHARACTERISTIC_MODE (sample_client [Byte.x02])) __init__ lacking)
    as (kept & _ & transport).
  split; [exact kept |].
  apply transport. intros [empty _]. vm_compute in empty. discriminate empty.
Defined.

(** C7 as worded fails on a device that supplies an empty state payload and
    lacks the device time: a payload is missing, and the error raised is the
    index error of the empty payload, not the one of the missing read. *)
Lemma async_poll_empty_state_hides_missing_time :
  lacks_one (delete CHARACTERISTIC_CURRENT_TIME (sample_client [])) /\
  (async_poll sample_strftime_localtime
     (delete CHARACTERISTIC_CURRENT_TIME (sample_client [])) __init__).1
  = inl IndexError /\
  (async_poll sample_strftime_localtime
     (delete CHARACTERISTIC_CURRENT_TIME (sample_client [])) __init__).1
  <> inl MissingCharacteristic.
Proof.
  split; [| split].
  - exists CHARACTERISTIC_CURRENT_TIME. split; [simpl; tauto | apply lookup_delete_eq].
  - vm_compute. reflexivity.
  - vm_compute. discriminate.
Qed.

Lemma unknown_state_label_witness :
  STATES !! byte_int Byte.x09 = None /\
  tb_state_of [Byte.x09] = inr "unknown state 9" /\
  native_value <$>
    _sensor_values
      (async_poll sample_strftime_localtime (sample_client [Byte.x09]) __init__).2
    !! "toothbrush_state"
  = Some (PyStr "unknown state 9").
Proof.
  assert (unmapped : STATES !! byte_int Byte.x09 = None) by (vm_compute; reflexivity).
  destruct (unknown_state_label sample_strftime_localtime Byte.x09 [] unmapped)
    as (label & sensor).
  split; [exact unmapped | split; [exact label |]].
  apply (sensor (sample_client [Byte.x09]) __init__ Byte.x50 []
           [Byte.x00; Byte.x5e; Byte.xd0; Byte.x65]).
  - apply sample_client_supplies_all.
  - vm_compute. reflexivity.
  - vm_compute. reflexivity.
  - vm_compute. reflexivity.
  - vm_compute. eauto.
Defined.

(** * Further properties of the parser *)

(** ** Advertisements *)

Lemma string_length_app (s t : string) :
  String.length (s +:+ t) = (String.length s + String.length t)%nat.
Proof. induction s as [| c s IH]; simpl; [reflexivity | now rewrite IH]. Qed.

Lemma is_substring_length (needle hay : string) :
  is_substring needle hay -> (String.length needle <= String.length hay)%nat.
Proof.
  intros (pre & post & ->). rewrite !string_length_app. lia.
Qed.

(** Two identifier lists with the same members raise the flag alike. *)
Lemma correct_device_members (l1 l2 : list string) :
  (forall u, In u l1 <-> In u l2) -> correct_device l1 = correct_device l2.
Proof.
  intros same.
  destruct (correct_device l1) eqn:flag1, (correct_device l2) eqn:flag2;
    try reflexivity.
  - apply correct_device_spec in flag1. destruct flag1 as (u & member & sub).
    assert (correct_device l2 = true) as flag
        by (apply correct_device_spec; exists u; split; [now apply same | exact sub]).
    congruence.
  - apply correct_device_spec in flag2. destruct flag2 as (u & member & sub).
    assert (correct_device l1 = true) as flag
        by (apply correct_device_spec; exists u; split; [now apply same | exact sub]).
    congruence.
Qed.

Section AdvertisementFacts.

Variable short_address : string -> string.

(** Handling the same advertisement again changes nothing. *)
Theorem start_update_idempotent (self : SonicareBluetoothDeviceData)
    (si : BluetoothServiceInfo) :
  _start_update short_address (_start_update short_address self si) si
  = _start_update short_address self si.
Proof.
  unfold _start_update.
  destruct (correct_device (service_uuids si)) eqn:flag; simpl;
    rewrite ?flag; reflexivity.
Qed.

(** A matching advertisement overrides whatever an earlier one set: the
    identity is that of the last matching advertisement. *)
Theorem start_update_last_match_wins (self : SonicareBluetoothDeviceData)
    (earlier later : BluetoothServiceInfo) :
  (exists u, In u (service_uuids later) /\
             is_substring SONICARE_ADVERTISMENT_UUID u) ->
  _start_update short_address (_start_update short_address self earlier) later
  = _start_update short_address self later.
Proof.
  intros found. apply correct_device_spec in found.
  unfold _start_update. rewrite found.
  destruct (correct_device (service_uuids earlier)); reflexivity.
Qed.

(** The outcome depends on the address and on which identifiers are
    advertised, not on their order or repetition, nor on the manufacturer
    data. *)
Theorem start_update_reads_address_and_identifier_set
    (self : SonicareBluetoothDeviceData) (si1 si2 : BluetoothServiceInfo) :
  address si1 = address si2 ->
  (forall u, In u (service_uuids si1) <-> In u (service_uuids si2)) ->
  _start_update short_address self si1 = _start_update short_address self si2.
Proof.
  intros same_address same_members. unfold _start_update.
  rewrite (correct_device_members _ _ same_members), same_address. reflexivity.
Qed.

(** Identifiers shorter than the 36 characters of the advertisement UUID,
    such as the 4- and 8-digit short forms, never make a device ours. *)
Theorem start_update_ignores_short_identifiers
    (self : SonicareBluetoothDeviceData) (si : BluetoothServiceInfo) :
  (forall u, In u (service_uuids si) -> (String.length u < 36)%nat) ->
  _start_update short_address self si = self.
Proof.
  intros short. unfold _start_update.
  destruct (correct_device (service_uuids si)) eqn:flag; [| reflexivity].
  apply correct_device_spec in flag. destruct flag as (u & member & sub).
  apply is_substring_length in sub. specialize (short u member).
  change (String.length SONICARE_ADVERTISMENT_UUID) with 36%nat in sub. lia.
Qed.

End AdvertisementFacts.

Lemma start_update_last_match_wins_witness :
  _start_update sample_short_address
    (_start_update sample_short_address __init__
       {| address := "00:11:22:33:44:55"; manufacturer_data := ∅;
          service_uuids := ["477ea600-a260-11e4-ae37-0002a5d50001"] |})
    (sample_service_info ["477ea600-a260-11e4-ae37-0002a5d50001"])
  = _start_update sample_short_address __init__
      (sample_service_info ["477ea600-a260-11e4-ae37-0002a5d50001"]).
Proof.
  apply start_update_last_match_wins.
  exists "477ea600-a260-11e4-ae37-0002a5d50001". split; [now left |].
  apply contains_spec. vm_compute. reflexivity.
Defined.

Lemma start_update_reads_address_and_identifier_set_witness :
  _start_update sample_short_address __init__
    {| address := "24:E5:AA:01:C3:7F";
       manufacturer_data := {[ 477 := [Byte.x01] ]};
       service_uuids := ["0000180f-0000-1000-8000-00805f9b34fb";
                         "477ea600-a260-11e4-ae37-0002a5d50001";
                         "0000180f-0000-1000-8000-00805f9b34fb"] |}
  = _start_update sample_short_address __init__
      (sample_service_info ["477ea600-a260-11e4-ae37-0002a5d50001";
                            "0000180f-0000-1000-8000-00805f9b34fb"]).
Proof.
  apply start_update_reads_address_and_identifier_set; [reflexivity |].
  intros u. simpl. tauto.
Defined.

Lemma start_update_ignores_short_identifiers_witness :
  _start_update sample_short_address __init__
    (sample_service_info ["180f"; "477ea600"]) = __init__.
Proof.
  apply start_update_ignores_short_identifiers.
  intros u [<- | [<- | []]]; vm_compute; lia.
Defined.

(** ** The poll scheduler *)

(** Once a poll is due it stays due as more time elapses. *)
Theorem poll_needed_stays_due (monotonic : Q) (self : SonicareBluetoothDeviceData)
    (si : BluetoothServiceInfo) (elapsed later : Q) :
  (elapsed <= later)%Q ->
  poll_needed monotonic self si (Some elapsed) = true ->
  poll_needed monotonic self si (Some later) = true.
Proof.
  intros more. rewrite !poll_needed_interval, !Qgt_bool_iff.
  intros due. eapply Qlt_le_trans; eassumption.
Qed.

Lemma poll_needed_stays_due_witness :
  poll_needed 100 (with_activity false 75) (sample_service_info []) (Some 40%Q) = true.
Proof.
  apply (poll_needed_stays_due 100 (with_activity false 75) (sample_service_info [])
           11 40); [vm_compute; discriminate | reflexivity].
Defined.

(** Whatever the activity and the clock, no poll is due within 10 units of
    the last one and one is always due after more than 20; in between the
    answer is the activity test itself. *)
Theorem poll_needed_bounds (monotonic : Q) (self : SonicareBluetoothDeviceData)
    (si : BluetoothServiceInfo) (elapsed : Q) :
  ((elapsed <= 10)%Q -> poll_needed monotonic self si (Some elapsed) = false) /\
  ((20 < elapsed)%Q -> poll_needed monotonic self si (Some elapsed) = true) /\
  ((10 < elapsed)%Q -> (elapsed <= 20)%Q ->
   poll_needed monotonic self si (Some elapsed)
   = _brushing self || Qle_bool (monotonic - _last_brush self) 30).
Proof.
  rewrite poll_needed_interval.
  destruct (_brushing self || Qle_bool (monotonic - _last_brush self) 30);
    repeat split; intros;
    try (apply Qgt_bool_iff; lra);
    apply not_true_iff_false; rewrite Qgt_bool_iff; lra.
Qed.

(** ** The life of an object *)

Section SessionFacts.

Variable short_address : string -> string.
Variable strftime_localtime : Z -> option string.

(** Neither an advertisement nor a poll changes what the scheduler answers. *)
Theorem poll_needed_unmoved_by_methods (monotonic : Q)
    (self : SonicareBluetoothDeviceData) (seen si : BluetoothServiceInfo)
    (client : gmap string (list byte)) (last_poll : option Q) :
  poll_needed monotonic (_start_update short_address self seen) si last_poll
  = poll_needed monotonic self si last_poll /\
  poll_needed monotonic (async_poll strftime_localtime client self).2 si last_poll
  = poll_needed monotonic self si last_poll.
Proof.
  split.
  - unfold _start_update. destruct (correct_device (service_uuids seen)); reflexivity.
  - destruct (async_poll_frame strftime_localtime client self) as (flag & stamp & _).
    unfold poll_needed. now rewrite flag, stamp.
Qed.

Lemma start_update_activity (self : SonicareBluetoothDeviceData)
    (si : BluetoothServiceInfo) :
  _brushing (_start_update short_address self si) = _brushing self /\
  _last_brush (_start_update short_address self si) = _last_brush self /\
  _sensor_values (_start_update short_address self si) = _sensor_values self.
Proof.
  unfold _start_update. destruct (correct_device (service_uuids si)); repeat split.
Qed.

(** No method writes the activity fields. *)
Lemma reachable_activity (self : SonicareBluetoothDeviceData) :
  reachable short_address strftime_localtime self ->
  _brushing self = false /\ _last_brush self = 0%Q.
Proof.
  induction 1 as [| self si _ [flag stamp] | self client _ [flag stamp]].
  - split; reflexivity.
  - destruct (start_update_activity self si) as (-> & -> & _). now split.
  - destruct (async_poll_frame strftime_localtime client self) as (-> & -> & _).
    now split.
Qed.

(** What every object of a session looks like: the brushing flag is down and
    the last-brushing timestamp is 0.0; the identity is either unset or that
    of an HX992X with some address; and no sensor exists beyond the five
    the poll writes before it stops. *)
Theorem reachable_invariant (self : SonicareBluetoothDeviceData) :
  reachable short_address strftime_localtime self ->
  _brushing self = false /\
  _last_brush self = 0%Q /\
  ((_device_manufacturer self = None /\ _device_type self = None /\
    _device_name self = None /\ _title self = None)
   \/ exists address,
        _device_manufacturer self = Some "Philips Sonicare" /\
        _device_type self = Some "HX992X" /\
        _device_name self = Some ("HX992X " +:+ short_address address) /\
        _title self = Some ("HX992X " +:+ short_address address)) /\
  (forall key, is_Some (_sensor_values self !! key) ->
     In key ["brushing_time"; "battery_percent"; "toothbrush_state";
             "current_time"; "brush_head_lifetime"]).
Proof.
  intros session. destruct (reachable_activity self session) as [flag stamp].
  split; [exact flag | split; [exact stamp |]]. clear flag stamp.
  induction session as [| self si _ [identity sensors] | self client _ [identity sensors]].
  - split; [left; repeat split |].
    intros key [entry found]. cbn in found. rewrite lookup_empty in found.
    discriminate found.
  - split.
    + unfold _start_update. destruct (correct_device (service_uuids si)); simpl.
      * right. exists (address si). repeat split.
      * exact identity.
    + destruct (start_update_activity self si) as (_ & _ & ->). exact sensors.
  - split.
    + destruct (async_poll_frame strftime_localtime client self)
        as (_ & _ & -> & -> & -> & ->). exact identity.
    + intros key written.
      destruct (decide (In key ["brushing_time"; "battery_percent"; "toothbrush_state";
                                "current_time"; "brush_head_lifetime"]))
        as [listed | other]; [exact listed |].
      rewrite (async_poll_other_sensors strftime_localtime client self key other)
        in written.
      apply sensors. exact written.
Qed.

(** On an object of a session the scheduler follows the clock alone: the
    short interval holds while the monotonic clock reads at most 30, the long
    one afterwards. *)
Theorem poll_needed_in_session (monotonic : Q) (self : SonicareBluetoothDeviceData)
    (si : BluetoothServiceInfo) (elapsed : Q) :
  reachable short_address strftime_localtime self ->
  poll_needed monotonic self si (Some elapsed) = true <->
  (monotonic <= 30 /\ 10 < elapsed)%Q \/ (30 < monotonic /\ 20 < elapsed)%Q.
Proof.
  intros session. destruct (reachable_activity self session) as [flag stamp].
  rewrite poll_needed_interval, flag, stamp. simpl.
  destruct (Qle_bool (monotonic - 0) 30) eqn:early; rewrite Qgt_bool_iff.
  - apply Qle_bool_iff in early. split; [intros; left; split; lra |].
    intros [[_ due] | [late _]]; lra.
  - apply not_true_iff_false in early. rewrite Qle_bool_iff in early.
    split; [intros; right; split; lra |].
    intros [[soon _] | [_ due]]; lra.
Qed.

End SessionFacts.

Lemma sample_session :
  reachable sample_short_address sample_strftime_localtime
    (async_poll sample_strftime_localtime (sample_client [Byte.x02])
       (_start_update sample_short_address __init__
          (sample_service_info ["477ea600-a260-11e4-ae37-0002a5d50001"]))).2.
Proof. apply reachable_async_poll, reachable_start_update, reachable_init. Qed.

Lemma reachable_invariant_witness :
  let self :=
    (async_poll sample_strftime_localtime (sample_client [Byte.x02])
       (_start_update sample_short_address __init__
          (sample_service_info ["477ea600-a260-11e4-ae37-0002a5d50001"]))).2 in
  _brushing self = false /\ _last_brush self = 0%Q.
Proof.
  destruct (reachable_invariant sample_short_address sample_strftime_localtime _
              sample_session) as (flag & stamp & _).
  split; [exact flag | exact stamp].
Defined.

Lemma poll_needed_in_session_witness :
  poll_needed 3600
    (async_poll sample_strftime_localtime (sample_client [Byte.x02])
       (_start_update sample_short_address __init__
          (sample_service_info ["477ea600-a260-11e4-ae37-0002a5d50001"]))).2
    (sample_service_info []) (Some 15%Q) = true <->
  (3600 <= 30 /\ 10 < 15)%Q \/ (30 < 3600 /\ 20 < 15)%Q.
Proof.
  apply (poll_needed_in_session sample_short_address sample_strftime_localtime).
  exact sample_session.
Defined.

(** ** The GATT poll, further *)

Section PollOutcomes.

Variable strftime_localtime : Z -> option string.

(** What the reads amount to: either every local variable, each holding what
    the device has, or the first exception met in reading order. *)
Lemma read_characteristics_cases (client : gmap string (list byte))
    (self : SonicareBluetoothDeviceData) :
  match (read_characteristics strftime_localtime client self).1 with
  | inr r =>
      client !! CHARACTERISTIC_BRUSH_USAGE = Some (brush_usage_payload r) /\
      client !! CHARACTERISTIC_BRUSH_LIFETIME = Some (brush_lifetime_payload r) /\
      client !! CHARACTERISTIC_MODE = Some (mode_payload r) /\
      client !! CHARACTERISTIC_STRENGTH = Some (strength_payload r) /\
      client !! CHARACTERISTIC_BATTERY = Some (battery_payload r) /\
      client !! CHARACTERISTIC_BRUSHING_TIME = Some (brushing_time_payload r) /\
      exists b rest ctp,
        client !! CHARACTERISTIC_STATE = Some (b :: rest) /\
        tb_state_of (b :: rest) = inr (tb_state r) /\
        client !! CHARACTERISTIC_CURRENT_TIME = Some ctp /\
        strftime_localtime (int_from_bytes_little ctp) = Some (current_time_stamp r)
  | inl e =>
      (e = MissingCharacteristic /\ lacks_one client)
      \/ (e = IndexError /\ client !! CHARACTERISTIC_STATE = Some [])
      \/ ((e = OSError \/ e = OverflowError) /\
          exists ctp, client !! CHARACTERISTIC_CURRENT_TIME = Some ctp /\
                      strftime_localtime (int_from_bytes_little ctp) = None)
  end.
Proof.
  unfold read_characteristics, mbind, Poll_bind, lift, mret, Poll_ret, read_gatt_char,
    current_time_stamp_of.
  destruct (client !! CHARACTERISTIC_BRUSH_USAGE) eqn:usage;
    [| left; split; [reflexivity |]; eexists; split; [| exact usage]; simpl; tauto].
  destruct (client !! CHARACTERISTIC_BRUSH_LIFETIME) eqn:lifetime;
    [| left; split; [reflexivity |]; eexists; split; [| exact lifetime]; simpl; tauto].
  destruct (client !! CHARACTERISTIC_MODE) eqn:mode;
    [| left; split; [reflexivity |]; eexists; split; [| exact mode]; simpl; tauto].
  destruct (client !! CHARACTERISTIC_STRENGTH) eqn:strength;
    [| left; split; [reflexivity |]; eexists; split; [| exact strength]; simpl; tauto].
  destruct (client !! CHARACTERISTIC_BATTERY) eqn:battery;
    [| left; split; [reflexivity |]; eexists; split; [| exact battery]; simpl; tauto].
  destruct (client !! CHARACTERISTIC_BRUSHING_TIME) eqn:brushing;
    [| left; split; [reflexivity |]; eexists; split; [| exact brushing]; simpl; tauto].
  destruct (client !! CHARACTERISTIC_STATE) as [[| b rest] |] eqn:state;
    [right; left; split; reflexivity | |
     left; split; [reflexivity |]; eexists; split; [| exact state]; simpl; tauto].
  destruct (client !! CHARACTERISTIC_CURRENT_TIME) as [ctp |] eqn:time;
    [| left; split; [reflexivity |]; eexists; split; [| exact time]; simpl; tauto].
  cbn [fst tb_state_of].
  destruct (strftime_localtime (int_from_bytes_little ctp)) as [stamp |] eqn:rendered.
  - cbn. repeat split. exists b, rest, ctp. repeat split. exact rendered.
  - cbn. right. right.
    split; [destruct (int_from_bytes_little ctp <? 2 ^ 63)%Z; tauto |].
    exists ctp. split; [reflexivity | exact rendered].
Qed.


(** The method gets as far as the missing [from_byte] exactly when the
    device has all eight characteristics, the state and battery payloads
    are not empty and the device time can be rendered. *)
Theorem async_poll_reaches_from_byte_iff (client : gmap string (list byte))
    (self : SonicareBluetoothDeviceData) :
  (async_poll strftime_localtime client self).1 = inl (AttributeError "from_byte")
  <->
  supplies_all client /\
  (exists b rest, client !! CHARACTERISTIC_STATE = Some (b :: rest)) /\
  (exists c more, client !! CHARACTERISTIC_BATTERY = Some (c :: more)) /\
  (exists ctp, client !! CHARACTERISTIC_CURRENT_TIME = Some ctp /\
               is_Some (strftime_localtime (int_from_bytes_little ctp))).
Proof.
  rewrite async_poll_outcome.
  pose proof (read_characteristics_cases client self) as cases.
  split.
  - destruct (read_characteristics strftime_localtime client self).1 as [e | r].
    + intros raised. injection raised as ->.
      destruct cases as [[absurd _] | [[absurd _] | [[absurd | absurd] _]]];
        discriminate absurd.
    + destruct cases as (usage & lifetime & mode & strength & battery & brushing &
                         b & rest & ctp & state & _ & time & rendered).
      destruct (battery_payload r) as [| c more] eqn:percent;
        [intros absurd; discriminate absurd | intros _].
      split; [| split; [eauto | split; [eauto |]]].
      * intros u listed. simpl in listed.
        destruct listed as [<- | [<- | [<- | [<- | [<- | [<- | [<- | [<- | []]]]]]]]];
          eauto.
      * exists ctp. split; [exact time | rewrite rendered; eauto].
  - intros (all & (b & rest & state) & (c & more & battery) & ctp & time & stamp & rendered).
    destruct (supplies_all_payloads client all)
      as (up & lp & mp & sp & bp & btp & stp & ctp' & ? & ? & ? & ? & ? & ? & ? & ?).
    simplify_eq.
    erewrite read_characteristics_supplied by eassumption.
    unfold current_time_stamp_of. rewrite rendered. reflexivity.
Qed.

End PollOutcomes.

Lemma byte_int_range (b : byte) : 0 <= byte_int b <= 255.
Proof.
  unfold byte_int. pose proof (Byte.to_N_bounded b). lia.
Qed.

Lemma int_from_bytes_little_app (low high : list byte) :
  int_from_bytes_little (low ++ high)
  = int_from_bytes_little low
    + 256 ^ Z.of_nat (length low) * int_from_bytes_little high.
Proof.
  induction low as [| b low IH]; simpl int_from_bytes_little.
  - simpl. lia.
  - rewrite IH. change (length (b :: low)) with (S (length low)).
    rewrite Nat2Z.inj_succ, Z.pow_succ_r by lia. ring.
Qed.

Lemma int_from_bytes_little_range (payload : list byte) :
  0 <= int_from_bytes_little payload < 256 ^ Z.of_nat (length payload).
Proof.
  induction payload as [| b payload IH]; simpl int_from_bytes_little.
  - simpl. lia.
  - change (length (b :: payload)) with (S (length payload)).
    rewrite Nat2Z.inj_succ, Z.pow_succ_r by lia.
    pose proof (byte_int_range b). lia.
Qed.

(** The little-endian reading of a payload: it is below 256 to the number
    of bytes, the bytes of a longer payload weigh in by position, and zero
    bytes at the end add nothing; a payload of one byte reads as that byte and
    the empty payload as 0. *)
Theorem int_from_bytes_little_positional (low high : list byte) (b : byte) (n : nat) :
  0 <= int_from_bytes_little low < 256 ^ Z.of_nat (length low) /\
  int_from_bytes_little (low ++ high)
  = int_from_bytes_little low
    + 256 ^ Z.of_nat (length low) * int_from_bytes_little high /\
  int_from_bytes_little (low ++ repeat Byte.x00 n) = int_from_bytes_little low /\
  int_from_bytes_little [b] = byte_int b /\
  int_from_bytes_little [] = 0.
Proof.
  split; [apply int_from_bytes_little_range |].
  split; [apply int_from_bytes_little_app |].
  split; [| split; [simpl; lia | reflexivity]].
  rewrite int_from_bytes_little_app.
  assert (zeros : int_from_bytes_little (repeat Byte.x00 n) = 0).
  { induction n as [| n IH]; simpl; [reflexivity |].
    rewrite IH. reflexivity. }
  rewrite zeros. lia.
Qed.

Section PollEffects.

Variable strftime_localtime : Z -> option string.

(** When the method gets as far as the missing [from_byte], the five
    sensors written hold: the brushing time and the head lifetime read
    little-endian over their whole payloads, the first battery byte as a
    percentage of class battery (between 0 and 255: nothing caps it at 100),
    the state label, and the rendered device time; every other sensor,
    head usage, mode and strength among them, is as it was. *)
Theorem async_poll_decodes_five_sensors (client : gmap string (list byte))
    (self : SonicareBluetoothDeviceData)
    (lp btp rest more ctp : list byte) (b c : byte) (stamp : string) :
  supplies_all client ->
  client !! CHARACTERISTIC_BRUSH_LIFETIME = Some lp ->
  client !! CHARACTERISTIC_BATTERY = Some (c :: more) ->
  client !! CHARACTERISTIC_BRUSHING_TIME = Some btp ->
  client !! CHARACTERISTIC_STATE = Some (b :: rest) ->
  client !! CHARACTERISTIC_CURRENT_TIME = Some ctp ->
  strftime_localtime (int_from_bytes_little ctp) = Some stamp ->
  let sensors := _sensor_values (async_poll strftime_localtime client self).2 in
  sensors !! "brushing_time"
  = Some {| native_unit_of_measurement := None;
            native_value := PyInt (int_from_bytes_little btp);
            device_class := None; sensor_name := "Brushing time" |} /\
  sensors !! "battery_percent"
  = Some {| native_unit_of_measurement := Some PERCENTAGE;
            native_value := PyInt (byte_int c);
            device_class := Some BATTERY; sensor_name := "Battery" |} /\
  0 <= byte_int c <= 255 /\
  sensors !! "toothbrush_state"
  = Some {| native_unit_of_measurement := None;
            native_value :=
              PyStr (default ("unknown state " +:+ format_int (byte_int b))
                             (STATES !! byte_int b));
            device_class := None; sensor_name := "Toothbrush State" |} /\
  sensors !! "current_time"
  = Some {| native_unit_of_measurement := None; native_value := PyStr stamp;
            device_class := None; sensor_name := "Toothbrush current time" |} /\
  sensors !! "brush_head_lifetime"
  = Some {| native_unit_of_measurement := None;
            native_value := PyInt (int_from_bytes_little lp);
            device_class := None;
            sensor_name := "Toothbrush head total lifetime" |} /\
  (forall key,
     ~ In key ["brushing_time"; "battery_percent"; "toothbrush_state";
               "current_time"; "brush_head_lifetime"] ->
     sensors !! key = _sensor_values self !! key).
Proof.
  intros all lifetime battery brushing state time rendered sensors. subst sensors.
  split; [| split; [| split; [apply byte_int_range | split; [| split; [| split]]]]];
    try (intros key other; apply async_poll_other_sensors; exact other);
    destruct (supplies_all_payloads client all)
      as (up & lp' & mp & sp & bp & btp' & stp & ctp' & ? & ? & ? & ? & ? & ? & ? & ?);
    simplify_eq;
    rewrite async_poll_outcome;
    erewrite read_characteristics_supplied by eassumption;
    unfold current_time_stamp_of; rewrite rendered;
    cbn [tb_state_of battery_payload snd];
    unfold after_five_updates, with_sensor; simpl;
    rewrite ?lookup_insert_ne by discriminate; rewrite lookup_insert_eq; reflexivity.
Qed.

(** An empty battery payload stops the method one step in: the brushing
    time has been written, the battery and every later sensor have not. *)
Theorem async_poll_empty_battery_writes_one_sensor (client : gmap string (list byte))
    (self : SonicareBluetoothDeviceData) (btp rest ctp : list byte) (b : byte) :
  supplies_all client ->
  client !! CHARACTERISTIC_BATTERY = Some [] ->
  client !! CHARACTERISTIC_BRUSHING_TIME = Some btp ->
  client !! CHARACTERISTIC_STATE = Some (b :: rest) ->
  client !! CHARACTERISTIC_CURRENT_TIME = Some ctp ->
  is_Some (strftime_localtime (int_from_bytes_little ctp)) ->
  async_poll strftime_localtime client self
  = (inl IndexError,
     with_sensor "brushing_time"
       {| native_unit_of_measurement := None;
          native_value := PyInt (int_from_bytes_little btp);
          device_class := None; sensor_name := "Brushing time" |} self).
Proof.
  intros all battery brushing state time [stamp rendered].
  destruct (supplies_all_payloads client all)
    as (up & lp & mp & sp & bp & btp' & stp & ctp' & ? & ? & ? & ? & ? & ? & ? & ?).
  simplify_eq.
  rewrite async_poll_outcome.
  erewrite read_characteristics_supplied by eassumption.
  unfold current_time_stamp_of. rewrite rendered. reflexivity.
Qed.

Lemma object_eq (s t : SonicareBluetoothDeviceData) :
  _brushing s = _brushing t -> _last_brush s = _last_brush t ->
  _device_manufacturer s = _device_manufacturer t ->
  _device_type s = _device_type t -> _device_name s = _device_name t ->
  _title s = _title t -> _sensor_values s = _sensor_values t -> s = t.
Proof. destruct s, t. simpl. intros. subst. reflexivity. Qed.

Lemma with_sensor_twice (key : string) (entry : SensorEntry)
    (self : SonicareBluetoothDeviceData) :
  with_sensor key entry (with_sensor key entry self) = with_sensor key entry self.
Proof.
  apply object_eq; try reflexivity.
  change (<[key:=entry]> (<[key:=entry]> (_sensor_values self))
          = <[key:=entry]> (_sensor_values self)).
  apply insert_insert_eq.
Qed.

Lemma after_five_updates_sensors (r : Readings) (percent : Z)
    (self : SonicareBluetoothDeviceData) (key : string) :
  _sensor_values (after_five_updates r percent self) !! key =
  if decide (key = "brush_head_lifetime") then
    Some {| native_unit_of_measurement := None;
            native_value := PyInt (int_from_bytes_little (brush_lifetime_payload r));
            device_class := None; sensor_name := "Toothbrush head total lifetime" |}
  else if decide (key = "current_time") then
    Some {| native_unit_of_measurement := None;
            native_value := PyStr (current_time_stamp r);
            device_class := None; sensor_name := "Toothbrush current time" |}
  else if decide (key = "toothbrush_state") then
    Some {| native_unit_of_measurement := None; native_value := PyStr (tb_state r);
            device_class := None; sensor_name := "Toothbrush State" |}
  else if decide (key = "battery_percent") then
    Some {| native_unit_of_measurement := Some PERCENTAGE;
            native_value := PyInt percent;
            device_class := Some BATTERY; sensor_name := "Battery" |}
  else if decide (key = "brushing_time") then
    Some {| native_unit_of_measurement := None;
            native_value := PyInt (int_from_bytes_little (brushing_time_payload r));
            device_class := None; sensor_name := "Brushing time" |}
  else _sensor_values self !! key.
Proof.
  unfold after_five_updates, with_sensor. simpl.
  repeat (case_decide;
          [subst key; rewrite ?lookup_insert_ne by discriminate;
           now rewrite lookup_insert_eq
          | rewrite (lookup_insert_ne _ _ key) by congruence]).
  reflexivity.
Qed.

Lemma after_five_updates_twice (r : Readings) (percent : Z)
    (self : SonicareBluetoothDeviceData) :
  after_five_updates r percent (after_five_updates r percent self)
  = after_five_updates r percent self.
Proof.
  apply object_eq; try reflexivity.
  apply map_eq. intros key.
  rewrite (after_five_updates_sensors r percent (after_five_updates r percent self)).
  rewrite !after_five_updates_sensors.
  repeat case_decide; reflexivity.
Qed.

(** Polling the same device again leaves the object as the first poll left
    it, and raises the same exception. *)
Theorem async_poll_idempotent (client : gmap string (list byte))
    (self : SonicareBluetoothDeviceData) :
  async_poll strftime_localtime client (async_poll strftime_localtime client self).2
  = async_poll strftime_localtime client self.
Proof.
  rewrite (async_poll_outcome strftime_localtime client
             (async_poll strftime_localtime client self).2).
  rewrite (read_characteristics_pure strftime_localtime client _ self).
  rewrite async_poll_outcome.
  destruct (read_characteristics strftime_localtime client self).1 as [e | r];
    [reflexivity |].
  destruct (battery_payload r); cbn [snd].
  - now rewrite with_sensor_twice.
  - now rewrite after_five_updates_twice.
Qed.

(** A poll and an advertisement write different fields: in either order
    they leave the same object, and the poll raises the same exception. *)
Theorem async_poll_commutes_with_start_update (short_address : string -> string)
    (client : gmap string (list byte)) (self : SonicareBluetoothDeviceData)
    (si : BluetoothServiceInfo) :
  (async_poll strftime_localtime client (_start_update short_address self si)).1
  = (async_poll strftime_localtime client self).1 /\
  (async_poll strftime_localtime client (_start_update short_address self si)).2
  = _start_update short_address (async_poll strftime_localtime client self).2 si.
Proof.
  rewrite (async_poll_outcome strftime_localtime client (_start_update _ _ _)).
  rewrite (read_characteristics_pure strftime_localtime client _ self).
  rewrite async_poll_outcome.
  destruct (read_characteristics strftime_localtime client self).1 as [e | r];
    [split; reflexivity |].
  unfold _start_update.
  destruct (battery_payload r), (correct_device (service_uuids si)); split; reflexivity.
Qed.

End PollEffects.

Lemma async_poll_decodes_five_sensors_witness :
  let sensors :=
    _sensor_values
      (async_poll sample_strftime_localtime (sample_client [Byte.x02]) __init__).2 in
  native_value <$> sensors !! "brushing_time" = Some (PyInt 120) /\
  native_value <$> sensors !! "battery_percent" = Some (PyInt 80) /\
  native_value <$> sensors !! "brush_head_lifetime" = Some (PyInt 272) /\
  sensors !! "mode" = None.
Proof.
  destruct (async_poll_decodes_five_sensors sample_strftime_localtime
              (sample_client [Byte.x02]) __init__
              [Byte.x10; Byte.x01] [Byte.x78; Byte.x00] [] []
              [Byte.x00; Byte.x5e; Byte.xd0; Byte.x65] Byte.x02 Byte.x50
              "epoch 1708154368")
    as (brushing & battery & _ & _ & _ & lifetime & others);
    [apply sample_client_supplies_all | vm_compute; reflexivity ..|].
  cbv zeta. rewrite brushing, battery, lifetime, others by (simpl; intuition discriminate).
  repeat split.
Defined.

Lemma async_poll_empty_battery_writes_one_sensor_witness :
  (async_poll sample_strftime_localtime
     (<[CHARACTERISTIC_BATTERY := []]> (sample_client [Byte.x02])) __init__).1
  = inl IndexError /\
  dom (_sensor_values
         (async_poll sample_strftime_localtime
            (<[CHARACTERISTIC_BATTERY := []]> (sample_client [Byte.x02])) __init__).2)
  = {[ "brushing_time" ]}.
Proof.
  rewrite (async_poll_empty_battery_writes_one_sensor sample_strftime_localtime
             (<[CHARACTERISTIC_BATTERY := []]> (sample_client [Byte.x02])) __init__
             [Byte.x78; Byte.x00] [] [Byte.x00; Byte.x5e; Byte.xd0; Byte.x65] Byte.x02).
  - split; [reflexivity |]. cbn. rewrite dom_insert_L, dom_empty_L. set_solver.
  - intros u listed. simpl in listed.
    destruct listed as [<- | [<- | [<- | [<- | [<- | [<- | [<- | [<- | []]]]]]]]];
      vm_compute; eauto.
  - vm_compute. reflexivity.
  - vm_compute. reflexivity.
  - vm_compute. reflexivity.
  - vm_compute. reflexivity.
  - vm_compute. eauto.
Defined.

(** ** The tables *)

(** The sensor keys are pairwise distinct: no two sensors share an entry. *)
Theorem str_injective (s t : SonicareSensor) : str s = str t -> s = t.
Proof. destruct s, t; simpl; intros same; solve [reflexivity | discriminate same]. Qed.

Lemma str_injective_witness : BRUSH_STRENGTH = BRUSH_STRENGTH.
Proof. apply str_injective. reflexivity. Defined.

(** Each derived mode table adds exactly one code to the table it extends
    and changes no label: the two agree on every other code, and the code
    added is not in the table extended. The kids table shares no code with
    the others. *)
Theorem mode_tables_extend_by_one_code (k : Z) :
  (k <> 160 -> DIAMOND_CLEAN_MODES !! k = EXPERT_CLEAN_MODES !! k) /\
  DIAMOND_CLEAN_MODES !! 160 = Some "white+" /\
  EXPERT_CLEAN_MODES !! 160 = None /\
  (k <> 210 -> PRESTIGE_MODES !! k = DIAMOND_CLEAN_MODES !! k) /\
  PRESTIGE_MODES !! 210 = Some "sensitive" /\
  DIAMOND_CLEAN_MODES !! 210 = None /\
  (is_Some (KIDS_MODES !! k) -> PRESTIGE_MODES !! k = None).
Proof.
  split; [| split; [vm_compute; reflexivity | split; [vm_compute; reflexivity |]]].
  { intros other. unfold DIAMOND_CLEAN_MODES. rewrite dict_or_lookup. cbn.
    now rewrite lookup_insert_ne, lookup_empty by congruence. }
  split; [| split; [vm_compute; reflexivity | split; [vm_compute; reflexivity |]]].
  { intros other. unfold PRESTIGE_MODES. rewrite dict_or_lookup. cbn.
    now rewrite lookup_insert_ne, lookup_empty by congruence. }
  intros [label kids]. unfold KIDS_MODES, dict_of in kids. simpl in kids.
  destruct (decide (k = 0)) as [-> | other]; [vm_compute; reflexivity |].
  rewrite lookup_insert_ne, lookup_empty in kids by congruence. discriminate kids.
Qed.

(** Every code of every table is a value a payload byte can take. *)
Theorem table_codes_fit_in_a_byte (m : Models) (k : Z) :
  is_Some (modes (DEVICE_TYPES m) !! k) \/ is_Some (STATES !! k)
  \/ is_Some (STRENGTH !! k) ->
  0 <= k <= 255.
Proof.
  assert (bounded : forall t : gmap Z string,
            bool_decide (map_Forall (fun code _ => 0 <= code <= 255) t) = true ->
            is_Some (t !! k) -> 0 <= k <= 255).
  { intros t checked [label entry]. apply bool_decide_eq_true in checked.
    exact (checked k label entry). }
  intros [entry | [entry | entry]]; revert entry; apply bounded.
  - destruct m; vm_compute; reflexivity.
  - vm_compute. reflexivity.
  - vm_compute. reflexivity.
Qed.

Lemma table_codes_fit_in_a_byte_witness : 0 <= 210 <= 255.
Proof.
  apply (table_codes_fit_in_a_byte HX9990 210). left. vm_compute. eauto.
Defined.

Lemma tb_state_of_first_byte (b : byte) (rest : list byte) :
  tb_state_of (b :: rest) = tb_state_of [b].
Proof. reflexivity. Qed.

Lemma code_of_state_label_finds (b : byte) :
  match tb_state_of [b] with
  | inr label => code_of_state_label label = Some b
  | inl _ => False
  end.
Proof. destruct b; vm_compute; reflexivity. Qed.

(** The state label tells the state code: payloads that resolve to the same
    label start with the same byte, whatever follows it. *)
Theorem tb_state_label_determines_code (a b : byte) (after_a after_b : list byte) :
  tb_state_of (a :: after_a) = tb_state_of (b :: after_b) -> a = b.
Proof.
  rewrite (tb_state_of_first_byte a), (tb_state_of_first_byte b). intros same.
  pose proof (code_of_state_label_finds a) as found_a.
  pose proof (code_of_state_label_finds b) as found_b.
  rewrite same in found_a.
  destruct (tb_state_of [b]) as [e | label]; [destruct found_b |].
  congruence.
Qed.

Lemma tb_state_label_determines_code_witness : Byte.x06 = Byte.x06.
Proof.
  apply (tb_state_label_determines_code Byte.x06 Byte.x06 [Byte.x01] []).
  reflexivity.
Defined.

(** The label is "run" exactly when the first byte of the state payload is
    2: no other code, mapped or not, reads as running. *)
Theorem tb_state_run_iff (b : byte) (rest : list byte) :
  tb_state_of (b :: rest) = inr "run" <-> byte_int b = 2.
Proof.
  rewrite tb_state_of_first_byte.
  destruct b; vm_compute; split; intros same;
    solve [reflexivity | discriminate same].
Qed.
